(** * Parallel LLM execution engine (python/parallel_llm_executor.py)

    A shallow embedding of [ParallelLLMExecutor]: model selection, the
    dispatch loops of the five strategies, result synthesis and the
    statistics ledger, followed by the properties of the engine.

    Conventions of the embedding.
    - Python [float]s are idealised as exact rationals ([Q]); equality of
      computed numbers is therefore stated with [==] ([Qeq]).  This is the
      real-valued reading of the arithmetic: the code rounds to binary64
      after every operation, so a property of the idealised numbers holds
      of the computed ones up to rounding only, unless it is an order
      property that rounding preserves.  The module [Binary64] gives the
      numeric code of the synthesizer and of the statistics update on the
      primitive binary64 floats, where the exact figures of a run are
      settled.
    - Python [int]s are [Z]; [str] is [string] (byte strings, which agree with
      Python's code points on ASCII text only; see [ascii_only]).
    - The body of the [try] block of [_execute_single_llm] (the simulated
      responder, which also calls the document processor) is opaque: the
      environment of one [execute_parallel] call says, per request, whether
      the body produced a text/confidence/token triple or raised, how long it
      took, and whether [future.result(timeout=30)] returned before its
      deadline.  The responder reads [self.current_module] and
      [self.current_context], which the call stores first: one environment
      is therefore the oracle of calls with one module and one context.
      The catalogue [COGNIWARE_LLMS] and the wall clock belong to the same
      environment.
    - [_update_statistics] and [get_statistics] run without a lock.  Their
      sequential meaning is given by functions; the section on ledger
      steps splits them into their stores and reads, which a scheduler may
      interleave. *)

From Stdlib Require Import List String ZArith QArith Lia Lqa Bool.
From Stdlib Require Import PrimFloat FloatOps Uint63.
Import ListNotations.

#[global] Set Warnings "-inexact-float".

Open Scope string_scope.
Open Scope list_scope.
Open Scope Z_scope.
Open Scope Q_scope.

(** ** Python values and helpers *)

(** Values stored in the parameter and metadata dictionaries: numbers and
    strings, and (in the metadata of a response) the parameter dictionary of
    the request. *)
Inductive PyScalar : Type :=
| PyInt (z : Z)
| PyFloat (q : Q)
| PyStr (s : string).

Definition Parameters : Type := list (string * PyScalar).

Inductive PyVal : Type :=
| Scalar (v : PyScalar)
| Nested (d : Parameters).

Definition Dict : Type := list (string * PyVal).

(** Exceptions, as far as the engine looks at them: it only ever takes
    [str(e)].  [TimeoutError] is what [Future.result(timeout=...)] raises,
    without arguments, so its [str] is the empty string. *)
Inductive PyException : Type :=
| TimeoutError
| Exception (msg : string).

Definition str (e : PyException) : string :=
  match e with
  | TimeoutError => ""
  | Exception msg => msg
  end.

(** [l[:n]] for a Python list. *)
Definition py_take {A : Type} (n : Z) (l : list A) : list A :=
  if (0 <=? n)%Z then firstn (Z.to_nat n) l
  else firstn (List.length l - Z.to_nat (- n)) l.

(** [l[-n:]] for a positive literal [n]. *)
Definition py_last {A : Type} (n : nat) (l : list A) : list A :=
  skipn (List.length l - n) l.

(** [len(l)] *)
Definition len {A : Type} (l : list A) : Z := Z.of_nat (List.length l).

(** [sum(xs)]: left to right, starting from 0. *)
Definition py_sum (xs : list Q) : Q := fold_left Qplus xs 0.

(** The loop of the builtin [max]: the running maximum is replaced only by a
    strictly greater key, so the first maximal item is the one returned. *)
Fixpoint max_from {A : Type} (key : A -> Q) (best : A) (l : list A) : A :=
  match l with
  | [] => best
  | x :: rest =>
      if Qlt_le_dec (key best) (key x) then max_from key x rest
      else max_from key best rest
  end.

(** [max(l, key=key, default=None)] *)
Definition py_max_key {A : Type} (key : A -> Q) (l : list A) : option A :=
  match l with
  | [] => None
  | x :: rest => Some (max_from key x rest)
  end.

(** [max(xs)] on a list of numbers; the engine only calls it on a list that
    contains the literal 0, the value given here to the empty list. *)
Definition py_max (xs : list Q) : Q :=
  match xs with
  | [] => 0
  | x :: rest => max_from (fun q => q) x rest
  end.

(** ** Data model *)

Inductive ProcessingStrategy : Type :=
| PARALLEL
| INTERFACE_ONLY
| KNOWLEDGE_ONLY
| SEQUENTIAL
| CONSENSUS.

Definition value (s : ProcessingStrategy) : string :=
  match s with
  | PARALLEL => "parallel"
  | INTERFACE_ONLY => "interface_only"
  | KNOWLEDGE_ONLY => "knowledge_only"
  | SEQUENTIAL => "sequential"
  | CONSENSUS => "consensus"
  end.

(** One entry of [COGNIWARE_LLMS], restricted to the keys the engine reads. *)
Record LLM : Type := mkLLM {
  model_id : string;
  model_name : string;
  model_type : string
}.

Module LLMRequest.
Record t : Type := mk {
  llm_id : string;
  llm_name : string;
  llm_type : string;
  prompt : string;
  parameters : Parameters;
  priority : Z
}.
End LLMRequest.

Module LLMResponse.
Record t : Type := mk {
  llm_id : string;
  llm_name : string;
  llm_type : string;
  response_text : string;
  confidence_score : Q;
  processing_time_ms : Q;
  tokens_generated : Z;
  success : bool;
  error : option string;
  metadata : option Dict
}.
End LLMResponse.

Module ParallelExecutionResult.
Record t : Type := mk {
  success : bool;
  strategy_used : string;
  llms_executed : Z;
  interface_llm_results : list LLMResponse.t;
  knowledge_llm_results : list LLMResponse.t;
  synthesized_result : string;
  confidence_score : Q;
  total_processing_time_ms : Q;
  parallel_speedup : Q;
  error : option string;
  metadata : option Dict
}.

(** [result.total_processing_time_ms = total_time] *)
Definition set_total_processing_time_ms (r : t) (total_time : Q) : t :=
  mk (success r) (strategy_used r) (llms_executed r)
     (interface_llm_results r) (knowledge_llm_results r)
     (synthesized_result r) (confidence_score r)
     total_time (parallel_speedup r) (error r) (metadata r).
End ParallelExecutionResult.

(** [self.statistics], a dictionary with five fixed keys. *)
Record Statistics : Type := mkStatistics {
  total_executions : Z;
  parallel_executions : Z;
  single_executions : Z;
  average_speedup : Q;
  total_time_saved_ms : Q
}.

(** One entry of [self.execution_history]. *)
Record HistoryEntry : Type := mkHistoryEntry {
  timestamp : string;
  entry_prompt : string;
  strategy : string;
  llms_used : Z;
  time_ms : Q;
  speedup : Q
}.

Record ParallelLLMExecutor : Type := mkExecutor {
  max_workers : Z;
  execution_history : list HistoryEntry;
  statistics : Statistics;
  current_module : option string;
  current_context : option Dict
}.

(** [ParallelLLMExecutor.__init__] *)
Definition __init__ (max_workers : Z) : ParallelLLMExecutor :=
  {| max_workers := max_workers;
     execution_history := [];
     statistics := mkStatistics 0 0 0 0.0 0.0;
     current_module := None;
     current_context := None |}.

(** The dictionary returned by [get_statistics]. *)
Record StatisticsSnapshot : Type := mkSnapshot {
  snapshot_statistics : Statistics;
  history_count : Z;
  recent_executions : list HistoryEntry
}.

(** ** Environment of one call *)

(** What the [try] block of [_execute_single_llm] did. *)
Inductive Simulated : Type :=
| Generated (response_text : string) (confidence : Q) (tokens : Z)
| Raised (e : PyException).

Record Environment : Type := mkEnvironment {
  (** the module-level list [COGNIWARE_LLMS] *)
  COGNIWARE_LLMS : list LLM;
  (** outcome of the simulated inference for a request *)
  run_model : LLMRequest.t -> Simulated;
  (** [(time.time() - start_time) * 1000] inside [_execute_single_llm] *)
  elapsed_time : LLMRequest.t -> Q;
  (** whether [future.result(timeout=30)] returns before the deadline *)
  on_time : LLMRequest.t -> bool;
  (** [(time.time() - start_time) * 1000] inside [execute_parallel] *)
  total_time : Q;
  (** [datetime.now().isoformat()] *)
  now : string
}.

(** ** The model catalogue (cogniware_llms.py) *)

Definition get_llms_by_type (env : Environment) (model_type' : string) : list LLM :=
  filter (fun llm => model_type llm =? model_type')%string (COGNIWARE_LLMS env).

Definition get_interface_llms (env : Environment) : list LLM :=
  get_llms_by_type env "interface".

Definition get_knowledge_llms (env : Environment) : list LLM :=
  get_llms_by_type env "knowledge".

(** ** The model invoker *)

(** The line feed of the f-strings. *)
Definition nl : string := String (Ascii.ascii_of_nat 10) EmptyString.

Definition _format_interface_prompt (prompt : string) : string :=
  ("You are a helpful AI assistant specialized in generating code and solutions."
   ++ nl ++ nl ++ "User Request: " ++ prompt ++ nl ++ nl
   ++ "Please provide a complete, working solution with proper code formatting, comments, and examples.")%string.

Definition _format_knowledge_prompt (prompt : string) : string :=
  ("You are a knowledge retrieval system. Provide relevant context and information."
   ++ nl ++ nl ++ "User Request: " ++ prompt ++ nl ++ nl
   ++ "Please provide: 1) Relevant background information, 2) Best practices, 3) Common pitfalls to avoid.")%string.

(** [{'temperature': temperature, 'max_tokens': max_tokens}] *)
Definition sampling (temperature : Q) (max_tokens : Z) : Parameters :=
  [("temperature", PyFloat temperature); ("max_tokens", PyInt max_tokens)].

(** [_execute_single_llm]: the [try] block either returns a successful
    response built from what the model produced, or the [except] clause
    turns the exception into a failed response. *)
Definition _execute_single_llm (env : Environment) (request : LLMRequest.t)
  : LLMResponse.t :=
  match run_model env request with
  | Generated response_text confidence tokens =>
      {| LLMResponse.llm_id := LLMRequest.llm_id request;
         LLMResponse.llm_name := LLMRequest.llm_name request;
         LLMResponse.llm_type := LLMRequest.llm_type request;
         LLMResponse.response_text := response_text;
         LLMResponse.confidence_score := confidence;
         LLMResponse.processing_time_ms := elapsed_time env request;
         LLMResponse.tokens_generated := tokens;
         LLMResponse.success := true;
         LLMResponse.error := None;
         LLMResponse.metadata :=
           Some [("model_parameters", Nested (LLMRequest.parameters request));
                 ("prompt_length",
                  Scalar (PyInt (Z.of_nat (String.length (LLMRequest.prompt request)))))] |}
  | Raised e =>
      {| LLMResponse.llm_id := LLMRequest.llm_id request;
         LLMResponse.llm_name := LLMRequest.llm_name request;
         LLMResponse.llm_type := LLMRequest.llm_type request;
         LLMResponse.response_text := "";
         LLMResponse.confidence_score := 0.0;
         LLMResponse.processing_time_ms := elapsed_time env request;
         LLMResponse.tokens_generated := 0;
         LLMResponse.success := false;
         LLMResponse.error := Some (str e);
         LLMResponse.metadata := None |}
  end.

(** ** The dispatcher *)

(** [future.result(timeout=30)] on the future of
    [self.executor.submit(self._execute_single_llm, req)]: the worker never
    raises (it catches [Exception] itself), so the call either returns the
    worker's response or raises [TimeoutError]. *)
Inductive FutureResult : Type :=
| Returns (response : LLMResponse.t)
| Throws (e : PyException).

Definition future_result (env : Environment) (req : LLMRequest.t) : FutureResult :=
  if on_time env req then Returns (_execute_single_llm env req)
  else Throws TimeoutError.

(** The error response built in the [except] clause of [_execute_parallel_mcp]. *)
Definition error_response (req : LLMRequest.t) (e : PyException) : LLMResponse.t :=
  {| LLMResponse.llm_id := LLMRequest.llm_id req;
     LLMResponse.llm_name := LLMRequest.llm_name req;
     LLMResponse.llm_type := LLMRequest.llm_type req;
     LLMResponse.response_text := "";
     LLMResponse.confidence_score := 0.0;
     LLMResponse.processing_time_ms := 0.0;
     LLMResponse.tokens_generated := 0;
     LLMResponse.success := false;
     LLMResponse.error := Some (str e);
     LLMResponse.metadata := None |}.

(** The response recorded for one [(future, req)] pair of the collection
    loop of [_execute_parallel_mcp]. *)
Definition collected (env : Environment) (req : LLMRequest.t) : LLMResponse.t :=
  match future_result env req with
  | Returns response => response
  | Throws e => error_response req e
  end.

(** One iteration of that loop: the response goes to the list of its
    request's type. *)
Definition collect (env : Environment)
  (acc : list LLMResponse.t * list LLMResponse.t) (req : LLMRequest.t)
  : list LLMResponse.t * list LLMResponse.t :=
  let '(interface_results, knowledge_results) := acc in
  if (LLMRequest.llm_type req =? "interface")%string
  then (interface_results ++ [collected env req], knowledge_results)
  else (interface_results, knowledge_results ++ [collected env req]).

(** [dispatch]: the whole collection loop over [futures]. *)
Definition dispatch (env : Environment) (llm_requests : list LLMRequest.t)
  : list LLMResponse.t * list LLMResponse.t :=
  fold_left (collect env) llm_requests ([], []).

(** ** The synthesizer *)

Definition processing_times (rs : list LLMResponse.t) : list Q :=
  map LLMResponse.processing_time_ms rs.

Definition successes (rs : list LLMResponse.t) : list LLMResponse.t :=
  filter LLMResponse.success rs.

(** The [speedup] computed at the start of [_synthesize_parallel_results]. *)
Definition synthesis_speedup (interface_results knowledge_results : list LLMResponse.t) : Q :=
  let sequential_time := py_sum (processing_times (interface_results ++ knowledge_results)) in
  let parallel_time :=
    py_max (processing_times interface_results ++ [0]
            ++ processing_times knowledge_results ++ [0]) in
  if Qlt_le_dec 0 parallel_time then sequential_time / parallel_time else 1.0.

Definition knowledge_block (best_interface best_knowledge : LLMResponse.t) : string :=
  (LLMResponse.response_text best_interface ++ nl ++ nl
   ++ "# Knowledge Context (from " ++ LLMResponse.llm_name best_knowledge ++ "):" ++ nl
   ++ "# " ++ LLMResponse.response_text best_knowledge ++ nl)%string.

Definition _synthesize_parallel_results
  (interface_results knowledge_results : list LLMResponse.t) : string * Q * Q :=
  let speedup := synthesis_speedup interface_results knowledge_results in
  let best_interface :=
    py_max_key LLMResponse.confidence_score (successes interface_results) in
  let best_knowledge :=
    py_max_key LLMResponse.confidence_score (successes knowledge_results) in
  match best_interface, best_knowledge with
  | Some best_interface, Some best_knowledge =>
      (knowledge_block best_interface best_knowledge,
       LLMResponse.confidence_score best_interface * 0.7
       + LLMResponse.confidence_score best_knowledge * 0.3,
       speedup)
  | Some best_interface, None =>
      (LLMResponse.response_text best_interface,
       LLMResponse.confidence_score best_interface * 0.8,
       speedup)
  | None, Some best_knowledge =>
      (LLMResponse.response_text best_knowledge,
       LLMResponse.confidence_score best_knowledge * 0.6,
       speedup)
  | None, None =>
      ("Unable to generate result from available LLMs", 0.0, speedup)
  end.

(** ** The strategies *)

Definition interface_request (prompt : string) (temperature : Q) (max_tokens : Z)
  (llm : LLM) : LLMRequest.t :=
  LLMRequest.mk (model_id llm) (model_name llm) "interface"
    (_format_interface_prompt prompt) (sampling temperature max_tokens) 1.

Definition knowledge_request (prompt : string) (temperature : Q) (max_tokens : Z)
  (llm : LLM) : LLMRequest.t :=
  LLMRequest.mk (model_id llm) (model_name llm) "knowledge"
    (_format_knowledge_prompt prompt) (sampling temperature max_tokens) 1.

(** The list [llm_requests] prepared by [_execute_parallel_mcp]. *)
Definition mcp_requests (prompt : string) (interface_llms knowledge_llms : list LLM)
  (temperature : Q) (max_tokens : Z) : list LLMRequest.t :=
  map (interface_request prompt temperature max_tokens) interface_llms
  ++ map (knowledge_request prompt temperature max_tokens) knowledge_llms.

Definition _execute_parallel_mcp (env : Environment) (prompt : string)
  (interface_llms knowledge_llms : list LLM) (temperature : Q) (max_tokens : Z)
  : ParallelExecutionResult.t :=
  let llm_requests :=
    mcp_requests prompt interface_llms knowledge_llms temperature max_tokens in
  let '(interface_results, knowledge_results) := dispatch env llm_requests in
  let '(synthesized, confidence, speedup) :=
    _synthesize_parallel_results interface_results knowledge_results in
  {| ParallelExecutionResult.success := true;
     ParallelExecutionResult.strategy_used := "parallel_mcp";
     ParallelExecutionResult.llms_executed :=
       (len interface_results + len knowledge_results)%Z;
     ParallelExecutionResult.interface_llm_results := interface_results;
     ParallelExecutionResult.knowledge_llm_results := knowledge_results;
     ParallelExecutionResult.synthesized_result := synthesized;
     ParallelExecutionResult.confidence_score := confidence;
     ParallelExecutionResult.total_processing_time_ms := 0.0;
     ParallelExecutionResult.parallel_speedup := speedup;
     ParallelExecutionResult.error := None;
     ParallelExecutionResult.metadata :=
       Some [("interface_llms_used", Scalar (PyInt (len interface_results)));
             ("knowledge_llms_used", Scalar (PyInt (len knowledge_results)));
             ("synthesis_method", Scalar (PyStr "weighted_combination"));
             ("patent_claim", Scalar (PyStr "Multi-Context Processing (MCP)"))] |}.

Definition _execute_single_type (env : Environment) (prompt : string)
  (llms : list LLM) (temperature : Q) (max_tokens : Z) (llm_type : string)
  : ParallelExecutionResult.t :=
  match llms with
  | [] =>
      {| ParallelExecutionResult.success := false;
         ParallelExecutionResult.strategy_used := (llm_type ++ "_only")%string;
         ParallelExecutionResult.llms_executed := 0;
         ParallelExecutionResult.interface_llm_results := [];
         ParallelExecutionResult.knowledge_llm_results := [];
         ParallelExecutionResult.synthesized_result := "";
         ParallelExecutionResult.confidence_score := 0.0;
         ParallelExecutionResult.total_processing_time_ms := 0.0;
         ParallelExecutionResult.parallel_speedup := 1.0;
         ParallelExecutionResult.error :=
           Some ("No " ++ llm_type ++ " LLMs available")%string;
         ParallelExecutionResult.metadata := None |}
  | llm :: _ =>
      let request :=
        LLMRequest.mk (model_id llm) (model_name llm) llm_type prompt
          (sampling temperature max_tokens) 1 in
      let response := _execute_single_llm env request in
      let results := if (llm_type =? "interface")%string then [response] else [] in
      let knowledge_results :=
        if (llm_type =? "knowledge")%string then [response] else [] in
      {| ParallelExecutionResult.success := LLMResponse.success response;
         ParallelExecutionResult.strategy_used := (llm_type ++ "_only")%string;
         ParallelExecutionResult.llms_executed := 1;
         ParallelExecutionResult.interface_llm_results := results;
         ParallelExecutionResult.knowledge_llm_results := knowledge_results;
         ParallelExecutionResult.synthesized_result := LLMResponse.response_text response;
         ParallelExecutionResult.confidence_score := LLMResponse.confidence_score response;
         ParallelExecutionResult.total_processing_time_ms := 0.0;
         ParallelExecutionResult.parallel_speedup := 1.0;
         ParallelExecutionResult.error :=
           if negb (LLMResponse.success response) then LLMResponse.error response
           else None;
         ParallelExecutionResult.metadata := None |}
  end.

Definition _execute_sequential (env : Environment) (prompt : string)
  (interface_llms knowledge_llms : list LLM) (temperature : Q) (max_tokens : Z)
  : ParallelExecutionResult.t :=
  let interface_result :=
    match interface_llms with
    | [] => None
    | llm :: _ =>
        Some (_execute_single_llm env
                (LLMRequest.mk (model_id llm) (model_name llm) "interface" prompt
                   (sampling temperature max_tokens) 1))
    end in
  let knowledge_result :=
    match knowledge_llms with
    | [] => None
    | llm :: _ =>
        let knowledge_prompt :=
          (prompt ++ nl ++ nl ++ "Context from interface: "
           ++ match interface_result with
              | Some r => LLMResponse.response_text r
              | None => ""
              end)%string in
        Some (_execute_single_llm env
                (LLMRequest.mk (model_id llm) (model_name llm) "knowledge"
                   knowledge_prompt (sampling temperature max_tokens) 1))
    end in
  let interface_results :=
    match interface_result with Some r => [r] | None => [] end in
  let knowledge_results :=
    match knowledge_result with Some r => [r] | None => [] end in
  let '(synthesized, confidence, speedup) :=
    _synthesize_parallel_results interface_results knowledge_results in
  {| ParallelExecutionResult.success := true;
     ParallelExecutionResult.strategy_used := "sequential";
     ParallelExecutionResult.llms_executed :=
       (len interface_results + len knowledge_results)%Z;
     ParallelExecutionResult.interface_llm_results := interface_results;
     ParallelExecutionResult.knowledge_llm_results := knowledge_results;
     ParallelExecutionResult.synthesized_result := synthesized;
     ParallelExecutionResult.confidence_score := confidence;
     ParallelExecutionResult.total_processing_time_ms := 0.0;
     ParallelExecutionResult.parallel_speedup := 0.5;
     ParallelExecutionResult.error := None;
     ParallelExecutionResult.metadata :=
       Some [("execution_order", Scalar (PyStr "interface_first"))] |}.

(** The requests of [_execute_consensus], one per model of [llms[:3]]. *)
Definition consensus_requests (prompt : string) (llms : list LLM)
  (temperature : Q) (max_tokens : Z) : list LLMRequest.t :=
  map (fun llm =>
         LLMRequest.mk (model_id llm) (model_name llm) (model_type llm) prompt
           (sampling temperature max_tokens) 1)
      (py_take 3 llms).

(** Its collection loop: a response is appended when the future returns;
    the bare [except: pass] drops the request otherwise. *)
Definition consensus_collect (env : Environment) (all_results : list LLMResponse.t)
  (req : LLMRequest.t) : list LLMResponse.t :=
  match future_result env req with
  | Returns response => all_results ++ [response]
  | Throws _ => all_results
  end.

Definition _execute_consensus (env : Environment) (prompt : string)
  (llms : list LLM) (temperature : Q) (max_tokens : Z)
  : ParallelExecutionResult.t :=
  let requests := consensus_requests prompt llms temperature max_tokens in
  let all_results := fold_left (consensus_collect env) requests [] in
  let best := py_max_key LLMResponse.confidence_score all_results in
  let interface_results :=
    filter (fun r => LLMResponse.llm_type r =? "interface")%string all_results in
  let knowledge_results :=
    filter (fun r => LLMResponse.llm_type r =? "knowledge")%string all_results in
  {| ParallelExecutionResult.success :=
       match best with Some _ => true | None => false end;
     ParallelExecutionResult.strategy_used := "consensus";
     ParallelExecutionResult.llms_executed := len all_results;
     ParallelExecutionResult.interface_llm_results := interface_results;
     ParallelExecutionResult.knowledge_llm_results := knowledge_results;
     ParallelExecutionResult.synthesized_result :=
       match best with Some b => LLMResponse.response_text b | None => "" end;
     ParallelExecutionResult.confidence_score :=
       match best with Some b => LLMResponse.confidence_score b | None => 0.0 end;
     ParallelExecutionResult.total_processing_time_ms := 0.0;
     ParallelExecutionResult.parallel_speedup := inject_Z (len all_results) * 0.8;
     ParallelExecutionResult.error := None;
     ParallelExecutionResult.metadata :=
       Some [("voting_method", Scalar (PyStr "highest_confidence"))] |}.

(** ** The statistics ledger *)

Definition _update_statistics (self : ParallelLLMExecutor)
  (result : ParallelExecutionResult.t) : ParallelLLMExecutor :=
  let st := statistics self in
  let total_executions' := (total_executions st + 1)%Z in
  let parallel_executions' :=
    if (1 <? ParallelExecutionResult.llms_executed result)%Z
    then (parallel_executions st + 1)%Z else parallel_executions st in
  let single_executions' :=
    if (1 <? ParallelExecutionResult.llms_executed result)%Z
    then single_executions st else (single_executions st + 1)%Z in
  let total_speedup :=
    average_speedup st * inject_Z (total_executions' - 1)
    + ParallelExecutionResult.parallel_speedup result in
  let average_speedup' := total_speedup / inject_Z total_executions' in
  let estimated_sequential_time :=
    ParallelExecutionResult.total_processing_time_ms result
    * ParallelExecutionResult.parallel_speedup result in
  let time_saved :=
    estimated_sequential_time
    - ParallelExecutionResult.total_processing_time_ms result in
  {| max_workers := max_workers self;
     execution_history := execution_history self;
     statistics :=
       {| total_executions := total_executions';
          parallel_executions := parallel_executions';
          single_executions := single_executions';
          average_speedup := average_speedup';
          total_time_saved_ms := total_time_saved_ms st + time_saved |};
     current_module := current_module self;
     current_context := current_context self |}.

(** [self.execution_history.append(entry)] *)
Definition append_history (self : ParallelLLMExecutor) (entry : HistoryEntry)
  : ParallelLLMExecutor :=
  {| max_workers := max_workers self;
     execution_history := execution_history self ++ [entry];
     statistics := statistics self;
     current_module := current_module self;
     current_context := current_context self |}.

Definition get_statistics (self : ParallelLLMExecutor) : StatisticsSnapshot :=
  {| snapshot_statistics := statistics self;
     history_count := len (execution_history self);
     recent_executions := py_last 10 (execution_history self) |}.

(** ** The entry point *)

(** The early result of [execute_parallel] when neither class has a model. *)
Definition no_llms_result (strategy : ProcessingStrategy) : ParallelExecutionResult.t :=
  {| ParallelExecutionResult.success := false;
     ParallelExecutionResult.strategy_used := value strategy;
     ParallelExecutionResult.llms_executed := 0;
     ParallelExecutionResult.interface_llm_results := [];
     ParallelExecutionResult.knowledge_llm_results := [];
     ParallelExecutionResult.synthesized_result := "";
     ParallelExecutionResult.confidence_score := 0.0;
     ParallelExecutionResult.total_processing_time_ms := 0.0;
     ParallelExecutionResult.parallel_speedup := 0.0;
     ParallelExecutionResult.error := Some "No LLMs available";
     ParallelExecutionResult.metadata := Some [] |}.

(** The execution plan chosen from the strategy. *)
Definition run_strategy (env : Environment) (prompt : string)
  (strategy : ProcessingStrategy) (interface_llms knowledge_llms : list LLM)
  (temperature : Q) (max_tokens : Z) : ParallelExecutionResult.t :=
  match strategy with
  | PARALLEL =>
      _execute_parallel_mcp env prompt interface_llms knowledge_llms temperature max_tokens
  | INTERFACE_ONLY =>
      _execute_single_type env prompt interface_llms temperature max_tokens "interface"
  | KNOWLEDGE_ONLY =>
      _execute_single_type env prompt knowledge_llms temperature max_tokens "knowledge"
  | SEQUENTIAL =>
      _execute_sequential env prompt interface_llms knowledge_llms temperature max_tokens
  | CONSENSUS =>
      _execute_consensus env prompt (interface_llms ++ knowledge_llms) temperature max_tokens
  end.

(** Whether every character of a string is an ASCII character.  On such a
    string the bytes of the embedding are the code points of the Python
    string, so that a slice cuts both at the same place. *)
Fixpoint ascii_only (s : string) : bool :=
  match s with
  | EmptyString => true
  | String c rest => (Ascii.N_of_ascii c <? 128)%N && ascii_only rest
  end.

(** The dictionary appended to [self.execution_history].  [prompt[:100]]
    is cut here after 100 bytes, which is Python's cut after 100 code
    points when the prompt is ASCII text. *)
Definition history_entry (env : Environment) (prompt : string)
  (strategy : ProcessingStrategy) (result : ParallelExecutionResult.t) : HistoryEntry :=
  {| timestamp := now env;
     entry_prompt := substring 0 100 prompt;
     strategy := value strategy;
     llms_used := ParallelExecutionResult.llms_executed result;
     time_ms := ParallelExecutionResult.total_processing_time_ms result;
     speedup := ParallelExecutionResult.parallel_speedup result |}.

(** [self.current_module = module; self.current_context = context or {}] *)
Definition store_context (self : ParallelLLMExecutor) (module : string)
  (context : option Dict) : ParallelLLMExecutor :=
  {| max_workers := max_workers self;
     execution_history := execution_history self;
     statistics := statistics self;
     current_module := Some module;
     current_context := Some match context with Some d => d | None => [] end |}.

(** The arguments of one [execute_parallel] call. *)
Record CallArgs : Type := mkCallArgs {
  prompt : string;
  arg_strategy : ProcessingStrategy;
  num_interface_llms : Z;
  num_knowledge_llms : Z;
  temperature : Q;
  max_tokens : Z;
  module : string;
  context : option Dict
}.

(** The defaults of the signature. *)
Definition default_arguments (prompt : string) : CallArgs :=
  mkCallArgs prompt PARALLEL 2 1 0.7 2048 "code_generation" None.

Definition selected_interface (env : Environment) (a : CallArgs) : list LLM :=
  py_take (num_interface_llms a) (get_interface_llms env).

Definition selected_knowledge (env : Environment) (a : CallArgs) : list LLM :=
  py_take (num_knowledge_llms a) (get_knowledge_llms env).

(** The guard [len(interface_llms) == 0 and len(knowledge_llms) == 0]. *)
Definition no_llms (env : Environment) (a : CallArgs) : bool :=
  (len (selected_interface env a) =? 0)%Z && (len (selected_knowledge env a) =? 0)%Z.

(** The result of the strategy with the measured total time stored in it. *)
Definition timed_result (env : Environment) (a : CallArgs) : ParallelExecutionResult.t :=
  ParallelExecutionResult.set_total_processing_time_ms
    (run_strategy env (prompt a) (arg_strategy a)
       (selected_interface env a) (selected_knowledge env a)
       (temperature a) (max_tokens a))
    (total_time env).

(** [execute_parallel]: the result and the executor after the call. *)
Definition execute_parallel (env : Environment) (self : ParallelLLMExecutor)
  (a : CallArgs) : ParallelExecutionResult.t * ParallelLLMExecutor :=
  let self := store_context self (module a) (context a) in
  if no_llms env a then (no_llms_result (arg_strategy a), self)
  else
    let result := timed_result env a in
    let self := _update_statistics self result in
    let self := append_history self (history_entry env (prompt a) (arg_strategy a) result) in
    (result, self).

(** A sequence of calls on the same executor, each in its own environment. *)
Definition run_calls (self : ParallelLLMExecutor) (calls : list (Environment * CallArgs))
  : ParallelLLMExecutor :=
  fold_left (fun self call => snd (execute_parallel (fst call) self (snd call))) calls self.

(** The calls of a sequence that get past the guard. *)
Definition recorded (calls : list (Environment * CallArgs)) : list (Environment * CallArgs) :=
  filter (fun call => negb (no_llms (fst call) (snd call))) calls.

(** The history entry a recorded call leaves. *)
Definition summary (call : Environment * CallArgs) : HistoryEntry :=
  history_entry (fst call) (prompt (snd call)) (arg_strategy (snd call))
    (timed_result (fst call) (snd call)).

(** ** Ledger steps under a scheduler *)

(** No lock is taken anywhere in the module, so a thread can be preempted
    between any two bytecodes.  With one executing thread and one reader,
    what the reader can observe changes only at the stores of the executing
    thread, and what it returns is fixed by its own reads; these stores and
    reads are the steps below. *)

(** [self.statistics[...] = ...]: the executor with other statistics. *)
Definition with_statistics (self : ParallelLLMExecutor) (st : Statistics)
  : ParallelLLMExecutor :=
  {| max_workers := max_workers self;
     execution_history := execution_history self;
     statistics := st;
     current_module := current_module self;
     current_context := current_context self |}.

(** The four stores of [_update_statistics], in program order. *)

(** [self.statistics['total_executions'] += 1] *)
Definition store_total_executions (self : ParallelLLMExecutor) : ParallelLLMExecutor :=
  let st := statistics self in
  with_statistics self
    {| total_executions := (total_executions st + 1)%Z;
       parallel_executions := parallel_executions st;
       single_executions := single_executions st;
       average_speedup := average_speedup st;
       total_time_saved_ms := total_time_saved_ms st |}.

(** [self.statistics['parallel_executions'] += 1] or
    [self.statistics['single_executions'] += 1] *)
Definition store_execution_class (self : ParallelLLMExecutor)
  (result : ParallelExecutionResult.t) : ParallelLLMExecutor :=
  let st := statistics self in
  with_statistics self
    {| total_executions := total_executions st;
       parallel_executions :=
         if (1 <? ParallelExecutionResult.llms_executed result)%Z
         then (parallel_executions st + 1)%Z else parallel_executions st;
       single_executions :=
         if (1 <? ParallelExecutionResult.llms_executed result)%Z
         then single_executions st else (single_executions st + 1)%Z;
       average_speedup := average_speedup st;
       total_time_saved_ms := total_time_saved_ms st |}.

(** [self.statistics['average_speedup'] = total_speedup / ...], which reads
    the execution count already incremented. *)
Definition store_average_speedup (self : ParallelLLMExecutor)
  (result : ParallelExecutionResult.t) : ParallelLLMExecutor :=
  let st := statistics self in
  let total_speedup :=
    average_speedup st * inject_Z (total_executions st - 1)
    + ParallelExecutionResult.parallel_speedup result in
  with_statistics self
    {| total_executions := total_executions st;
       parallel_executions := parallel_executions st;
       single_executions := single_executions st;
       average_speedup := total_speedup / inject_Z (total_executions st);
       total_time_saved_ms := total_time_saved_ms st |}.

(** [self.statistics['total_time_saved_ms'] += time_saved] *)
Definition store_total_time_saved (self : ParallelLLMExecutor)
  (result : ParallelExecutionResult.t) : ParallelLLMExecutor :=
  let st := statistics self in
  let estimated_sequential_time :=
    ParallelExecutionResult.total_processing_time_ms result
    * ParallelExecutionResult.parallel_speedup result in
  let time_saved :=
    estimated_sequential_time
    - ParallelExecutionResult.total_processing_time_ms result in
  with_statistics self
    {| total_executions := total_executions st;
       parallel_executions := parallel_executions st;
       single_executions := single_executions st;
       average_speedup := average_speedup st;
       total_time_saved_ms := total_time_saved_ms st + time_saved |}.

(** The steps of the two threads.  The executing thread performs the four
    stores of [_update_statistics] and the append to the history.  The
    reader, inside [get_statistics], copies [self.statistics] into the new
    dictionary, takes [len(self.execution_history)] and takes the slice
    [self.execution_history[-10:]]. *)
Inductive LedgerStep : Type :=
| StoreTotalExecutions
| StoreExecutionClass (result : ParallelExecutionResult.t)
| StoreAverageSpeedup (result : ParallelExecutionResult.t)
| StoreTotalTimeSaved (result : ParallelExecutionResult.t)
| AppendHistory (entry : HistoryEntry)
| CopyStatistics
| ReadHistoryCount
| ReadRecentExecutions.

(** What a reader inside [get_statistics] has read so far. *)
Record Reader : Type := mkReader {
  copied_statistics : option Statistics;
  read_history_count : option Z;
  read_recent_executions : option (list HistoryEntry)
}.

Definition idle : Reader := mkReader None None None.

(** The shared executor, the reader, and the snapshots returned so far. *)
Record Shared : Type := mkShared {
  shared_executor : ParallelLLMExecutor;
  shared_reader : Reader;
  returned : list StatisticsSnapshot
}.

(** The reader returns its dictionary once the three reads are done. *)
Definition deliver (self : ParallelLLMExecutor) (r : Reader)
  (out : list StatisticsSnapshot) : Shared :=
  match copied_statistics r, read_history_count r, read_recent_executions r with
  | Some st, Some count, Some recent =>
      mkShared self idle (out ++ [mkSnapshot st count recent])
  | _, _, _ => mkShared self r out
  end.

(** One step, on the shared state. *)
Definition ledger_step (sh : Shared) (s : LedgerStep) : Shared :=
  let self := shared_executor sh in
  let r := shared_reader sh in
  let out := returned sh in
  match s with
  | StoreTotalExecutions => mkShared (store_total_executions self) r out
  | StoreExecutionClass result => mkShared (store_execution_class self result) r out
  | StoreAverageSpeedup result => mkShared (store_average_speedup self result) r out
  | StoreTotalTimeSaved result => mkShared (store_total_time_saved self result) r out
  | AppendHistory entry => mkShared (append_history self entry) r out
  | CopyStatistics =>
      deliver self
        (mkReader (Some (statistics self)) (read_history_count r)
           (read_recent_executions r)) out
  | ReadHistoryCount =>
      deliver self
        (mkReader (copied_statistics r) (Some (len (execution_history self)))
           (read_recent_executions r)) out
  | ReadRecentExecutions =>
      deliver self
        (mkReader (copied_statistics r) (read_history_count r)
           (Some (py_last 10 (execution_history self)))) out
  end.

(** A schedule run from an executor with no reader under way: the executor
    and the snapshots returned. *)
Definition run_schedule (self : ParallelLLMExecutor) (schedule : list LedgerStep)
  : ParallelLLMExecutor * list StatisticsSnapshot :=
  let sh := fold_left ledger_step schedule (mkShared self idle []) in
  (shared_executor sh, returned sh).

(** The ledger steps of one execution, in program order. *)
Definition ledger_steps (env : Environment) (a : CallArgs) : list LedgerStep :=
  [StoreTotalExecutions;
   StoreExecutionClass (timed_result env a);
   StoreAverageSpeedup (timed_result env a);
   StoreTotalTimeSaved (timed_result env a);
   AppendHistory (history_entry env (prompt a) (arg_strategy a) (timed_result env a))].

(** The reads of [get_statistics], in the two orders in which interpreters
    perform them.  The dictionary display
    [{**self.statistics, 'history_count': ..., 'recent_executions': ...}]
    merges [self.statistics] into the new dictionary before the two history
    reads when it is compiled to [DICT_UPDATE] (CPython 3.9 and later), and
    after them when it is compiled to [BUILD_MAP_UNPACK] (CPython 3.7 and
    3.8). *)
Definition reads_copy_first : list LedgerStep :=
  [CopyStatistics; ReadHistoryCount; ReadRecentExecutions].

Definition reads_copy_last : list LedgerStep :=
  [ReadHistoryCount; ReadRecentExecutions; CopyStatistics].

(** The schedules of two threads: each keeps its program order. *)
Inductive interleaving {A : Type} : list A -> list A -> list A -> Prop :=
| interleaving_nil : interleaving [] [] []
| interleaving_left x l r m : interleaving l r m -> interleaving (x :: l) r (x :: m)
| interleaving_right x l r m : interleaving l r m -> interleaving l (x :: r) (x :: m).

(** A snapshot in which the counters and the history agree. *)
Definition consistent (snap : StatisticsSnapshot) : Prop :=
  total_executions (snapshot_statistics snap) = history_count snap.

(** ** Concrete catalogue and environments *)

(** [COGNIWARE_LLMS] as listed in cogniware_llms.py. *)
Definition catalogue : list LLM :=
  [ mkLLM "cogniware-chat-7b" "Cogniware Chat 7B" "interface";
    mkLLM "cogniware-chat-13b" "Cogniware Chat 13B" "interface";
    mkLLM "cogniware-code-7b" "Cogniware Code 7B" "interface";
    mkLLM "cogniware-code-13b" "Cogniware Code 13B" "interface";
    mkLLM "cogniware-knowledge-7b" "Cogniware Knowledge 7B" "knowledge";
    mkLLM "cogniware-knowledge-13b" "Cogniware Knowledge 13B" "knowledge";
    mkLLM "cogniware-embed-base" "Cogniware Embeddings Base" "embedding";
    mkLLM "cogniware-embed-large" "Cogniware Embeddings Large" "embedding";
    mkLLM "cogniware-sql-7b" "Cogniware SQL 7B" "interface";
    mkLLM "cogniware-summarize-7b" "Cogniware Summarization 7B" "interface";
    mkLLM "cogniware-translate-7b" "Cogniware Translation 7B" "interface";
    mkLLM "cogniware-sentiment-base" "Cogniware Sentiment Analysis" "specialized" ].

(** Every model answers: interface models in 500 ms with confidence 0.95,
    knowledge models in 300 ms with confidence 0.85.  The figures are those
    of the generic branches of the simulated responder; the environment is
    an oracle of its own and not that responder, which answers a prompt
    that mentions fibonacci with other text and with confidence 0.88 from
    the knowledge models. *)
Definition answering : Environment :=
  {| COGNIWARE_LLMS := catalogue;
     run_model := fun req =>
       if (LLMRequest.llm_type req =? "interface")%string
       then Generated "def main(): pass" 0.95 200
       else Generated
              "Knowledge context: Best practices and implementation guidelines for the requested task."
              0.85 60;
     elapsed_time := fun req =>
       if (LLMRequest.llm_type req =? "interface")%string then 500 else 300;
     on_time := fun _ => true;
     total_time := 520;
     now := "2025-01-01T00:00:00" |}.

(** Every model call raises inside the invoker. *)
Definition raising : Environment :=
  {| COGNIWARE_LLMS := catalogue;
     run_model := fun _ => Raised (Exception "inference engine unavailable");
     elapsed_time := fun _ => 2;
     on_time := fun _ => true;
     total_time := 5;
     now := "2025-01-01T00:00:00" |}.

(** Every model call is still running when its 30 second deadline passes. *)
Definition stalled : Environment :=
  {| COGNIWARE_LLMS := catalogue;
     run_model := fun _ => Generated "late answer" 0.9 10;
     elapsed_time := fun _ => 45000;
     on_time := fun _ => false;
     total_time := 30010;
     now := "2025-01-01T00:00:00" |}.

(** An installation whose catalogue is empty. *)
Definition uninstalled : Environment :=
  {| COGNIWARE_LLMS := [];
     run_model := fun _ => Raised (Exception "no such model");
     elapsed_time := fun _ => 0;
     on_time := fun _ => true;
     total_time := 1;
     now := "2025-01-01T00:00:00" |}.

(** The module-level instance [parallel_executor]. *)
Definition parallel_executor : ParallelLLMExecutor := __init__ 8.

Definition with_strategy (s : ProcessingStrategy) (a : CallArgs) : CallArgs :=
  mkCallArgs (prompt a) s (num_interface_llms a) (num_knowledge_llms a)
    (temperature a) (max_tokens a) (module a) (context a).

Definition fibonacci_prompt : string :=
  "Generate Python code for Fibonacci series with count entered by user".

(** ** What "best" means *)

(** [has_success rs]: the list contains at least one successful result. *)
Definition has_success (rs : list LLMResponse.t) : Prop :=
  exists r, In r rs /\ LLMResponse.success r = true.

(** [best_of rs b]: [b] is a successful result of [rs] with the highest
    confidence among the successes, and every success submitted before it
    has a strictly lower confidence (ties go to the earlier result). *)
Definition best_of (rs : list LLMResponse.t) (b : LLMResponse.t) : Prop :=
  exists earlier later,
    successes rs = earlier ++ b :: later
    /\ Forall (fun r => LLMResponse.confidence_score r < LLMResponse.confidence_score b) earlier
    /\ Forall (fun r => LLMResponse.confidence_score r <= LLMResponse.confidence_score b) later.

(** The three components of the tuple returned by the synthesizer. *)
Definition synthesized_text (t : string * Q * Q) : string := fst (fst t).
Definition combined_confidence (t : string * Q * Q) : Q := snd (fst t).
Definition speedup_factor (t : string * Q * Q) : Q := snd t.

(** An execution with the defaults of the signature (parallel strategy, two
    interface models, one knowledge model) in the [answering] environment. *)
Definition example_result : ParallelExecutionResult.t :=
  fst (execute_parallel answering parallel_executor (default_arguments fibonacci_prompt)).

Definition example_interface : list LLMResponse.t :=
  ParallelExecutionResult.interface_llm_results example_result.

Definition example_knowledge : list LLMResponse.t :=
  ParallelExecutionResult.knowledge_llm_results example_result.

(** The sum and the maximum of the claims about the speedup ratio, in the
    words of the specification: the elapsed times added up, and an element of
    the list that no other element exceeds. *)
Definition sum_of_times (times : list Q) : Q := fold_right Qplus 0 times.

Definition is_maximum (m : Q) (times : list Q) : Prop :=
  In m times /\ Forall (fun t => t <= m) times.

(** The elapsed times of all the individual results of an execution. *)
Definition individual_times (r : ParallelExecutionResult.t) : list Q :=
  processing_times (ParallelExecutionResult.interface_llm_results r
                    ++ ParallelExecutionResult.knowledge_llm_results r).

(** The same request under the consensus strategy. *)
Definition consensus_result : ParallelExecutionResult.t :=
  fst (execute_parallel answering parallel_executor
         (with_strategy CONSENSUS (default_arguments fibonacci_prompt))).

(** The test [req.llm_type == 'interface'] of the collection loop. *)
Definition is_interface (req : LLMRequest.t) : bool :=
  (LLMRequest.llm_type req =? "interface")%string.

(** All the individual results of an execution. *)
Definition individual_results (r : ParallelExecutionResult.t) : list LLMResponse.t :=
  ParallelExecutionResult.interface_llm_results r
  ++ ParallelExecutionResult.knowledge_llm_results r.

(** Every invoked model call of the execution failed. *)
Definition all_failed (r : ParallelExecutionResult.t) : Prop :=
  Forall (fun x => LLMResponse.success x = false) (individual_results r).

(** The default request when every model call raises. *)
Definition failed_result : ParallelExecutionResult.t :=
  fst (execute_parallel raising parallel_executor (default_arguments fibonacci_prompt)).

(** The responses collected by [_execute_consensus] for the selected models. *)
Definition consensus_results (env : Environment) (a : CallArgs) : list LLMResponse.t :=
  map (_execute_single_llm env)
    (filter (on_time env)
       (consensus_requests (prompt a)
          (selected_interface env a ++ selected_knowledge env a)
          (temperature a) (max_tokens a))).

(** The default request on an installation without models. *)
Definition uninstalled_result : ParallelExecutionResult.t :=
  fst (execute_parallel uninstalled parallel_executor (default_arguments fibonacci_prompt)).

(** The default request, under the parallel and the consensus strategy,
    when every model call outlives its deadline. *)
Definition stalled_result : ParallelExecutionResult.t :=
  fst (execute_parallel stalled parallel_executor (default_arguments fibonacci_prompt)).

Definition stalled_consensus_requests : list LLMRequest.t :=
  consensus_requests fibonacci_prompt
    (selected_interface stalled (default_arguments fibonacci_prompt)
     ++ selected_knowledge stalled (default_arguments fibonacci_prompt))
    0.7 2048.

Definition stalled_consensus_result : ParallelExecutionResult.t :=
  fst (execute_parallel stalled parallel_executor
         (with_strategy CONSENSUS (default_arguments fibonacci_prompt))).

(** Eleven executions of the example request, one after the other. *)
Definition eleven_calls : list (Environment * CallArgs) :=
  repeat (answering, default_arguments fibonacci_prompt) 11.

(** One call on an installation without models. *)
Definition unanswerable_call : list (Environment * CallArgs) :=
  [(uninstalled, default_arguments fibonacci_prompt)].

(** The ledger steps of the example execution, and two schedules of it with
    a reader: in the first the reader runs after the store of the execution
    count and before the append to the history; in the second it copies the
    statistics before that store and reads the history after the append. *)
Definition example_steps : list LedgerStep :=
  ledger_steps answering (default_arguments fibonacci_prompt).

Definition torn_schedule : list LedgerStep :=
  match example_steps with
  | store_total :: rest => store_total :: reads_copy_first ++ rest
  | [] => []
  end.

Definition late_schedule : list LedgerStep :=
  CopyStatistics :: example_steps ++ [ReadHistoryCount; ReadRecentExecutions].

(** ** The rest of the catalogue interface (cogniware_llms.py) *)

(** [get_llm_by_id]: the first entry with that identifier, or [None]. *)
Definition get_llm_by_id (env : Environment) (model_id' : string) : option LLM :=
  find (fun llm => model_id llm =? model_id')%string (COGNIWARE_LLMS env).

Definition get_embedding_llms (env : Environment) : list LLM :=
  get_llms_by_type env "embedding".

Definition get_specialized_llms (env : Environment) : list LLM :=
  get_llms_by_type env "specialized".

Definition get_all_llms (env : Environment) : list LLM := COGNIWARE_LLMS env.

(** ** The convenience functions of the module *)

(** The [strategy_enum] chosen by [execute_with_parallel_llms] from the
    strategy string: [PARALLEL] unless one of the four other names is given. *)
Definition strategy_enum (strategy : string) : ProcessingStrategy :=
  if (strategy =? "interface_only")%string then INTERFACE_ONLY
  else if (strategy =? "knowledge_only")%string then KNOWLEDGE_ONLY
  else if (strategy =? "sequential")%string then SEQUENTIAL
  else if (strategy =? "consensus")%string then CONSENSUS
  else PARALLEL.

(** [d.get(key, default)] on a dictionary written as a literal. *)
Fixpoint dict_get (key : string) (d : Dict) (default : PyVal) : PyVal :=
  match d with
  | [] => default
  | (k, v) :: rest => if (k =? key)%string then v else dict_get key rest default
  end.

(** The dictionary returned by [get_execution_summary]. *)
Module ExecutionSummary.
Record llms_used_t : Type := mk_llms_used {
  total : Z;
  interface : Z;
  knowledge : Z
}.
Record performance_t : Type := mk_performance {
  processing_time_ms : Q;
  parallel_speedup : string;
  time_saved_ms : Q
}.
Record quality_t : Type := mk_quality {
  confidence_score : string;
  synthesis_method : PyVal
}.
Record t : Type := mk {
  success : bool;
  strategy : string;
  llms_used : llms_used_t;
  performance : performance_t;
  quality : quality_t;
  patent_claim : string;
  result : string
}.
End ExecutionSummary.

Section Formatting.

(** Python's [format(x, '.2f')] and [format(x, '.1f')], used by the
    f-strings of the summary. *)
Variable format_2f : Q -> string.
Variable format_1f : Q -> string.

Definition get_execution_summary (result : ParallelExecutionResult.t)
  : ExecutionSummary.t :=
  {| ExecutionSummary.success := ParallelExecutionResult.success result;
     ExecutionSummary.strategy := ParallelExecutionResult.strategy_used result;
     ExecutionSummary.llms_used :=
       {| ExecutionSummary.total := ParallelExecutionResult.llms_executed result;
          ExecutionSummary.interface :=
            len (ParallelExecutionResult.interface_llm_results result);
          ExecutionSummary.knowledge :=
            len (ParallelExecutionResult.knowledge_llm_results result) |};
     ExecutionSummary.performance :=
       {| ExecutionSummary.processing_time_ms :=
            ParallelExecutionResult.total_processing_time_ms result;
          ExecutionSummary.parallel_speedup :=
            (format_2f (ParallelExecutionResult.parallel_speedup result) ++ "x")%string;
          ExecutionSummary.time_saved_ms :=
            ParallelExecutionResult.total_processing_time_ms result
            * (ParallelExecutionResult.parallel_speedup result - 1) |};
     ExecutionSummary.quality :=
       {| ExecutionSummary.confidence_score :=
            (format_1f (ParallelExecutionResult.confidence_score result * 100) ++ "%")%string;
          ExecutionSummary.synthesis_method :=
            match ParallelExecutionResult.metadata result with
            | Some (binding :: rest) =>
                dict_get "synthesis_method" (binding :: rest) (Scalar (PyStr "N/A"))
            | _ => Scalar (PyStr "N/A")
            end |};
     ExecutionSummary.patent_claim :=
       "Multi-Context Processing (MCP) - Parallel heterogeneous LLM execution";
     ExecutionSummary.result := ParallelExecutionResult.synthesized_result result |}.

(** The arguments [execute_with_parallel_llms] passes on: the sampling
    parameters keep their defaults and the context is [context or {}]. *)
Definition convenience_arguments (prompt strategy : string)
  (num_interface num_knowledge : Z) (module : string) (context : option Dict)
  : CallArgs :=
  mkCallArgs prompt (strategy_enum strategy) num_interface num_knowledge
    0.7 2048 module (Some match context with Some d => d | None => [] end).

(** [execute_with_parallel_llms], on an explicit executor. *)
Definition execute_with_parallel_llms (env : Environment) (self : ParallelLLMExecutor)
  (prompt strategy : string) (num_interface num_knowledge : Z)
  (module : string) (context : option Dict)
  : ExecutionSummary.t * ParallelLLMExecutor :=
  let call :=
    execute_parallel env self
      (convenience_arguments prompt strategy num_interface num_knowledge module context) in
  (get_execution_summary (fst call), snd call).

End Formatting.

(** [get_executor_statistics] *)
Definition get_executor_statistics (self : ParallelLLMExecutor) : StatisticsSnapshot :=
  get_statistics self.

(** ** Notions used by the further properties *)




(** Every answer of the models carries a confidence between 0 and 1. *)
Definition confidences_in_unit_interval (env : Environment) : Prop :=
  forall req text c n, run_model env req = Generated text c n -> 0 <= c /\ c <= 1.

(** A well-formed individual result: a failure has an empty text, a zero
    confidence and an error string; a success has no error. *)
Definition well_formed (x : LLMResponse.t) : Prop :=
  if LLMResponse.success x
  then LLMResponse.error x = None
  else LLMResponse.response_text x = ""
       /\ LLMResponse.confidence_score x = 0.0
       /\ LLMResponse.error x <> None.

(** Three models that disagree: the first answers with confidence 0.80, the
    two others with confidence 0.92. *)
Definition voting : Environment :=
  {| COGNIWARE_LLMS := catalogue;
     run_model := fun req =>
       if (LLMRequest.llm_id req =? "cogniware-chat-7b")%string
       then Generated "answer of the 7B chat model" 0.80 50
       else Generated ("answer of " ++ LLMRequest.llm_name req) 0.92 50;
     elapsed_time := fun _ => 400;
     on_time := fun _ => true;
     total_time := 410;
     now := "2025-01-01T00:00:00" |}.

Definition voting_result : ParallelExecutionResult.t :=
  fst (execute_parallel voting parallel_executor
         (with_strategy CONSENSUS (default_arguments fibonacci_prompt))).

(** Where an individual result comes from: the invoker, or the error
    response built by the collection loop of the parallel strategy. *)
Definition produced (env : Environment) (x : LLMResponse.t) : Prop :=
  (exists req, x = _execute_single_llm env req)
  \/ (exists req e, x = error_response req e).

(** A confidence between 0 and 1. *)
Definition in_unit_interval (c : Q) : Prop := 0 <= c /\ c <= 1.

(** The same call with other model counts. *)
Definition with_counts (num_interface num_knowledge : Z) (a : CallArgs) : CallArgs :=
  mkCallArgs (prompt a) (arg_strategy a) num_interface num_knowledge
    (temperature a) (max_tokens a) (module a) (context a).

(** The interface model answers with an error, the knowledge model answers. *)
Definition interface_down : Environment :=
  {| COGNIWARE_LLMS := catalogue;
     run_model := fun req =>
       if (LLMRequest.llm_type req =? "interface")%string
       then Raised (Exception "CUDA out of memory")
       else Generated "Knowledge context." 0.85 60;
     elapsed_time := fun _ => 300;
     on_time := fun _ => true;
     total_time := 610;
     now := "2025-01-01T00:00:00" |}.



(** ** The numeric code in binary64 *)

(** The engine computes on Python floats, that is on binary64 numbers, and
    rounds after every operation.  [Binary64] is the synthesizer and the
    statistics update with their numbers as the primitive binary64 floats,
    on responses restricted to the fields the synthesizer reads; decimal
    literals denote the nearest binary64 number, as in Python, and [sum]
    adds from left to right. *)
Module Binary64.

Record LLMResponse : Type := mkLLMResponse {
  llm_name : string;
  response_text : string;
  confidence_score : float;
  processing_time_ms : float;
  success : bool
}.

(** The loop of the builtin [max], with the comparison of floats. *)
Fixpoint max_from {A : Type} (key : A -> float) (best : A) (l : list A) : A :=
  match l with
  | [] => best
  | x :: rest =>
      if (key best <? key x)%float then max_from key x rest
      else max_from key best rest
  end.

Definition py_max_key {A : Type} (key : A -> float) (l : list A) : option A :=
  match l with
  | [] => None
  | x :: rest => Some (max_from key x rest)
  end.

Definition py_max (xs : list float) : float :=
  match xs with
  | [] => 0%float
  | x :: rest => max_from (fun t => t) x rest
  end.

(** [sum(xs)]: left to right from 0, rounding after every addition. *)
Definition py_sum (xs : list float) : float :=
  fold_left PrimFloat.add xs 0%float.

Definition processing_times (rs : list LLMResponse) : list float :=
  map processing_time_ms rs.

Definition successes (rs : list LLMResponse) : list LLMResponse :=
  filter success rs.

Definition synthesis_speedup (interface_results knowledge_results : list LLMResponse)
  : float :=
  let sequential_time := py_sum (processing_times (interface_results ++ knowledge_results)) in
  let parallel_time :=
    py_max (processing_times interface_results ++ [0%float]
            ++ processing_times knowledge_results ++ [0%float]) in
  if (0 <? parallel_time)%float then (sequential_time / parallel_time)%float
  else 1%float.

Definition _synthesize_parallel_results
  (interface_results knowledge_results : list LLMResponse) : string * float * float :=
  let speedup := synthesis_speedup interface_results knowledge_results in
  let best_interface := py_max_key confidence_score (successes interface_results) in
  let best_knowledge := py_max_key confidence_score (successes knowledge_results) in
  match best_interface, best_knowledge with
  | Some best_interface, Some best_knowledge =>
      ((response_text best_interface ++ nl ++ nl
        ++ "# Knowledge Context (from " ++ llm_name best_knowledge ++ "):" ++ nl
        ++ "# " ++ response_text best_knowledge ++ nl)%string,
       (confidence_score best_interface * 0.7
        + confidence_score best_knowledge * 0.3)%float,
       speedup)
  | Some best_interface, None =>
      (response_text best_interface,
       (confidence_score best_interface * 0.8)%float,
       speedup)
  | None, Some best_knowledge =>
      (response_text best_knowledge,
       (confidence_score best_knowledge * 0.6)%float,
       speedup)
  | None, None =>
      ("Unable to generate result from available LLMs", 0%float, speedup)
  end.

Definition combined_confidence (t : string * float * float) : float := snd (fst t).

(** [float(n)] for a count [n], as in the product of a float and an int
    (exact for the counts below 2^53). *)
Definition of_int (n : Z) : float := PrimFloat.of_uint63 (Uint63.of_Z n).

(** [self.statistics], and its initial value in [__init__]. *)
Record Statistics : Type := mkStatistics {
  total_executions : Z;
  parallel_executions : Z;
  single_executions : Z;
  average_speedup : float;
  total_time_saved_ms : float
}.

Definition initial_statistics : Statistics := mkStatistics 0 0 0 0 0.

Definition _update_statistics (st : Statistics) (llms_executed : Z)
  (total_processing_time_ms parallel_speedup : float) : Statistics :=
  let total := (total_executions st + 1)%Z in
  let total_speedup :=
    (average_speedup st * of_int (total - 1) + parallel_speedup)%float in
  let estimated_sequential_time := (total_processing_time_ms * parallel_speedup)%float in
  let time_saved := (estimated_sequential_time - total_processing_time_ms)%float in
  {| total_executions := total;
     parallel_executions :=
       if (1 <? llms_executed)%Z then (parallel_executions st + 1)%Z
       else parallel_executions st;
     single_executions :=
       if (1 <? llms_executed)%Z then single_executions st
       else (single_executions st + 1)%Z;
     average_speedup := (total_speedup / of_int total)%float;
     total_time_saved_ms := (total_time_saved_ms st + time_saved)%float |}.

(** An interface answer of confidence 0.95 in 500 ms and a knowledge answer
    of confidence 0.85 in 300 ms, the figures of the generic branches of the
    simulated responder. *)
Definition interface_answer : LLMResponse :=
  mkLLMResponse "Cogniware Chat 7B" "def main(): pass" 0.95 500 true.

Definition knowledge_answer : LLMResponse :=
  mkLLMResponse "Cogniware Knowledge 7B"
    "Knowledge context: Best practices and implementation guidelines for the requested task."
    0.85 300 true.

(** The speedup of two such interface answers and one knowledge answer, and
    the ledger after eleven executions that report it, each of 520 ms. *)
Definition example_speedup : float :=
  synthesis_speedup [interface_answer; interface_answer] [knowledge_answer].

Definition eleven_updates : Statistics :=
  Nat.iter 11 (fun st => _update_statistics st 3 520 example_speedup)
    initial_statistics.

(** Three answers that took 341.37 ms each. *)
Definition equal_times : list LLMResponse :=
  repeat (mkLLMResponse "Cogniware Chat 7B" "def main(): pass" 0.95 341.37 true) 3.

End Binary64.

(** * Properties *)

(** ** The builtin [max] *)

Section MaxFrom.
Context {A : Type} (key : A -> Q).

Lemma max_from_split (l : list A) : forall best,
  exists earlier later,
    best :: l = earlier ++ max_from key best l :: later
    /\ Forall (fun x => key x < key (max_from key best l)) earlier
    /\ Forall (fun x => key x <= key (max_from key best l)) later.
Proof.
  induction l as [|x rest IH]; intros best; simpl.
  - exists [], []. repeat split; constructor.
  - destruct (Qlt_le_dec (key best) (key x)) as [Hlt|Hle].
    + destruct (IH x) as (earlier & later & Heq & Hearlier & Hlater).
      remember (max_from key x rest) as m eqn:Hm. clear Hm IH.
      exists (best :: earlier), later. split; [simpl; now rewrite Heq|].
      split; [|assumption]. constructor; [|assumption].
      destruct earlier as [|y earlier']; simpl in Heq; injection Heq as Hx Hrest.
      * now rewrite <- Hx.
      * apply Forall_inv in Hearlier. rewrite <- Hx in Hearlier.
        eapply Qlt_trans; eassumption.
    + destruct (IH best) as (earlier & later & Heq & Hearlier & Hlater).
      remember (max_from key best rest) as m eqn:Hm. clear Hm IH.
      destruct earlier as [|y earlier']; simpl in Heq; injection Heq as Hb Hrest.
      * exists [], (x :: rest). split; [simpl; congruence|].
        split; [constructor|]. constructor.
        -- now rewrite <- Hb.
        -- now rewrite Hrest.
      * exists (y :: x :: earlier'), later. split; [simpl; congruence|].
        split; [|assumption].
        pose proof (Forall_inv Hearlier) as Hy. apply Forall_inv_tail in Hearlier.
        constructor; [assumption|]. constructor; [|assumption].
        rewrite <- Hb in Hy. eapply Qle_lt_trans; eassumption.
Qed.

Lemma py_max_key_split (l : list A) (b : A) :
  py_max_key key l = Some b ->
  exists earlier later,
    l = earlier ++ b :: later
    /\ Forall (fun x => key x < key b) earlier
    /\ Forall (fun x => key x <= key b) later.
Proof.
  destruct l as [|x rest]; simpl; [discriminate|].
  intros H; inversion H; subst. apply max_from_split.
Qed.

Lemma py_max_key_some (l : list A) :
  l <> [] -> exists b, py_max_key key l = Some b.
Proof.
  destruct l as [|x rest]; [congruence|]. intros _. simpl. eauto.
Qed.

End MaxFrom.

Lemma has_success_successes (rs : list LLMResponse.t) :
  has_success rs <-> successes rs <> [].
Proof.
  unfold has_success, successes. split.
  - intros (r & Hin & Hs) Hnil.
    assert (Hf : In r (filter LLMResponse.success rs)) by (apply filter_In; auto).
    rewrite Hnil in Hf. contradiction.
  - intros Hne. destruct (filter LLMResponse.success rs) as [|r l] eqn:E; [congruence|].
    exists r. apply filter_In. rewrite E. now left.
Qed.

Lemma best_of_py_max_key (rs : list LLMResponse.t) (b : LLMResponse.t) :
  py_max_key LLMResponse.confidence_score (successes rs) = Some b -> best_of rs b.
Proof. intros H. apply py_max_key_split in H. exact H. Qed.

Lemma no_success_py_max_key (rs : list LLMResponse.t) :
  ~ has_success rs -> py_max_key LLMResponse.confidence_score (successes rs) = None.
Proof.
  intros H. rewrite has_success_successes in H.
  destruct (successes rs); [reflexivity|]. exfalso. apply H. discriminate.
Qed.

Lemma has_success_py_max_key (rs : list LLMResponse.t) :
  has_success rs ->
  exists b, py_max_key LLMResponse.confidence_score (successes rs) = Some b /\ best_of rs b.
Proof.
  intros H. apply has_success_successes in H.
  destruct (py_max_key_some LLMResponse.confidence_score _ H) as [b Hb].
  exists b. split; [assumption|]. now apply best_of_py_max_key.
Qed.

(** ** Synthesis *)

(** C3 (amended).  Synthesis weighting.  With a success in both lists the
    combined confidence is 0.7 x best interface confidence + 0.3 x best
    knowledge confidence and the text is the best interface text followed
    by the delimited knowledge-context block; with interface successes only
    it is 0.8 x the best interface confidence; with knowledge successes only
    it is 0.6 x the best knowledge confidence.  "Best" is [best_of]: highest
    confidence among the successes, the earliest on a tie.  The formulas
    are those of the real-valued reading; the code evaluates them in
    binary64, rounding after every operation, and there the confidences
    0.95 and 0.85 give 0.9199999999999999, not 0.92. *)
Theorem synthesis_weighting (interface_results knowledge_results : list LLMResponse.t) :
  let out := _synthesize_parallel_results interface_results knowledge_results in
  (has_success interface_results -> has_success knowledge_results ->
   exists bi bk,
     best_of interface_results bi /\ best_of knowledge_results bk
     /\ combined_confidence out
        == 0.7 * LLMResponse.confidence_score bi + 0.3 * LLMResponse.confidence_score bk
     /\ synthesized_text out
        = (LLMResponse.response_text bi ++ nl ++ nl
           ++ "# Knowledge Context (from " ++ LLMResponse.llm_name bk ++ "):" ++ nl
           ++ "# " ++ LLMResponse.response_text bk ++ nl)%string)
  /\ (has_success interface_results -> ~ has_success knowledge_results ->
      exists bi,
        best_of interface_results bi
        /\ combined_confidence out == 0.8 * LLMResponse.confidence_score bi
        /\ synthesized_text out = LLMResponse.response_text bi)
  /\ (~ has_success interface_results -> has_success knowledge_results ->
      exists bk,
        best_of knowledge_results bk
        /\ combined_confidence out == 0.6 * LLMResponse.confidence_score bk
        /\ synthesized_text out = LLMResponse.response_text bk)
  /\ (forall (interface_floats knowledge_floats : list Binary64.LLMResponse)
             (bi bk : Binary64.LLMResponse),
        Binary64.py_max_key Binary64.confidence_score
          (Binary64.successes interface_floats) = Some bi ->
        Binary64.py_max_key Binary64.confidence_score
          (Binary64.successes knowledge_floats) = Some bk ->
        let rounded :=
          Binary64.combined_confidence
            (Binary64._synthesize_parallel_results interface_floats knowledge_floats) in
        rounded = (Binary64.confidence_score bi * 0.7
                   + Binary64.confidence_score bk * 0.3)%float
        /\ (Binary64.confidence_score bi = 0.95%float ->
            Binary64.confidence_score bk = 0.85%float ->
            rounded = 0.9199999999999999%float /\ rounded <> 0.92%float)).
Proof.
  intros out. subst out. unfold _synthesize_parallel_results.
  split; [|split; [|split]].
  all: cycle 3.
  - intros ri rk bi bk Ebi Ebk.
    unfold Binary64._synthesize_parallel_results. rewrite Ebi, Ebk.
    unfold Binary64.combined_confidence. cbn [fst snd].
    split; [reflexivity|]. intros E1 E2. rewrite E1, E2.
    split; [vm_compute; reflexivity|].
    intros H. apply (f_equal Prim2SF) in H. vm_compute in H. discriminate H.
  - intros Hi Hk.
    destruct (has_success_py_max_key _ Hi) as (bi & Ebi & Hbi).
    destruct (has_success_py_max_key _ Hk) as (bk & Ebk & Hbk).
    rewrite Ebi, Ebk. exists bi, bk.
    unfold combined_confidence, synthesized_text; simpl.
    repeat split; try assumption. lra.
  - intros Hi Hk.
    destruct (has_success_py_max_key _ Hi) as (bi & Ebi & Hbi).
    rewrite Ebi, (no_success_py_max_key _ Hk). exists bi.
    unfold combined_confidence, synthesized_text; simpl.
    repeat split; try assumption. lra.
  - intros Hi Hk.
    destruct (has_success_py_max_key _ Hk) as (bk & Ebk & Hbk).
    rewrite Ebk, (no_success_py_max_key _ Hi). exists bk.
    unfold combined_confidence, synthesized_text; simpl.
    repeat split; try assumption. lra.
Qed.

Lemma synthesis_weighting_witness :
  has_success example_interface /\ has_success example_knowledge
  /\ exists bi bk,
       best_of example_interface bi /\ best_of example_knowledge bk
       /\ combined_confidence (_synthesize_parallel_results example_interface example_knowledge)
          == 0.7 * LLMResponse.confidence_score bi + 0.3 * LLMResponse.confidence_score bk
       /\ Binary64.combined_confidence
            (Binary64._synthesize_parallel_results
               [Binary64.interface_answer] [Binary64.knowledge_answer])
          = 0.9199999999999999%float.
Proof.
  assert (Hi : has_success example_interface)
    by (apply has_success_successes; vm_compute; discriminate).
  assert (Hk : has_success example_knowledge)
    by (apply has_success_successes; vm_compute; discriminate).
  split; [exact Hi|]. split; [exact Hk|].
  destruct (synthesis_weighting example_interface example_knowledge)
    as (Hboth & _ & _ & Hfloat).
  destruct (Hboth Hi Hk) as (bi & bk & H1 & H2 & H3 & _).
  exists bi, bk. repeat (split; [assumption|]).
  apply (Hfloat [Binary64.interface_answer] [Binary64.knowledge_answer]
           Binary64.interface_answer Binary64.knowledge_answer
           eq_refl eq_refl); reflexivity.
Defined.

(** The figure of the specification fails in the arithmetic of the code: an
    interface answer of confidence 0.95 and a knowledge answer of confidence
    0.85 combine to 0.9199999999999999, which is below 0.92. *)
Lemma binary64_weighting_counterexample :
  let rounded :=
    Binary64.combined_confidence
      (Binary64._synthesize_parallel_results
         [Binary64.interface_answer] [Binary64.knowledge_answer]) in
  Binary64.confidence_score Binary64.interface_answer = 0.95%float
  /\ Binary64.confidence_score Binary64.knowledge_answer = 0.85%float
  /\ rounded = 0.9199999999999999%float
  /\ rounded <> 0.92%float
  /\ (rounded <? 0.92)%float = true.
Proof.
  cbv zeta. split; [reflexivity|]. split; [reflexivity|].
  split; [vm_compute; reflexivity|]. split; [|vm_compute; reflexivity].
  intros H. apply (f_equal Prim2SF) in H. vm_compute in H. discriminate H.
Qed.

(** ** Speedup *)

Lemma fold_left_Qplus (xs : list Q) : forall a,
  fold_left Qplus xs a == a + sum_of_times xs.
Proof.
  induction xs as [|x xs IH]; intros a; simpl.
  - lra.
  - rewrite IH. lra.
Qed.

Lemma py_sum_sum_of_times (xs : list Q) : py_sum xs == sum_of_times xs.
Proof. unfold py_sum. rewrite fold_left_Qplus. lra. Qed.

Lemma py_max_is_maximum (xs : list Q) : xs <> [] -> is_maximum (py_max xs) xs.
Proof.
  destruct xs as [|x rest]; [congruence|]. intros _. simpl.
  destruct (max_from_split (fun q => q) rest x) as (earlier & later & Heq & He & Hl).
  remember (max_from (fun q => q) x rest) as m eqn:Hm. clear Hm.
  rewrite Heq. split.
  - apply in_or_app. right. now left.
  - apply Forall_app. split.
    + eapply Forall_impl; [|exact He]. intros t Ht. now apply Qlt_le_weak.
    + constructor; [apply Qle_refl|assumption].
Qed.

Lemma speedup_factor_synthesis (interface_results knowledge_results : list LLMResponse.t) :
  speedup_factor (_synthesize_parallel_results interface_results knowledge_results)
  = synthesis_speedup interface_results knowledge_results.
Proof.
  unfold _synthesize_parallel_results.
  destruct (py_max_key _ (successes interface_results)),
           (py_max_key _ (successes knowledge_results)); reflexivity.
Qed.

(** The ratio computed by the synthesizer, when some result took time. *)
Lemma synthesis_speedup_ratio (interface_results knowledge_results : list LLMResponse.t) :
  let times := processing_times (interface_results ++ knowledge_results) in
  times <> [] ->
  Forall (fun t => 0 < t) times ->
  exists slowest,
    is_maximum slowest times
    /\ synthesis_speedup interface_results knowledge_results
       == sum_of_times times / slowest.
Proof.
  intros times Hne Hpos. unfold synthesis_speedup.
  fold times. remember times as ts eqn:Ets. unfold times in Ets. clear times.
  rename ts into times.
  set (padded := processing_times interface_results ++ [0]
                 ++ processing_times knowledge_results ++ [0]).
  assert (Hpadded : padded <> []).
  { unfold padded. destruct (processing_times interface_results); discriminate. }
  destruct (py_max_is_maximum padded Hpadded) as [Hin Hall].
  remember (py_max padded) as m eqn:Hm. clear Hm.
  assert (Htimes : times = processing_times interface_results
                           ++ processing_times knowledge_results).
  { rewrite Ets. unfold processing_times. apply map_app. }
  assert (Hsub : forall t, In t times -> In t padded).
  { intros t Ht. rewrite Htimes in Ht. unfold padded.
    apply in_app_or in Ht. apply in_or_app. destruct Ht as [Ht|Ht]; [now left|].
    right. simpl. right. apply in_or_app. now left. }
  assert (Hm : 0 < m).
  { clear Ets Htimes. destruct times as [|t ts]; [congruence|].
    apply Qlt_le_trans with t.
    - now apply Forall_inv in Hpos.
    - rewrite Forall_forall in Hall. apply Hall, Hsub. now left. }
  destruct (Qlt_le_dec 0 m) as [_|Hle]; [|exfalso; lra].
  exists m. split; [split|].
  - unfold padded in Hin. rewrite Htimes.
    apply in_app_or in Hin. apply in_or_app. destruct Hin as [Hin|Hin]; [now left|].
    simpl in Hin. destruct Hin as [Hz|Hin]; [subst m; exfalso; lra|].
    apply in_app_or in Hin. destruct Hin as [Hin|Hin]; [now right|].
    destruct Hin as [Hz|[]]. subst m; exfalso; lra.
  - rewrite Forall_forall in *. intros t Ht. apply Hall, Hsub, Ht.
  - rewrite py_sum_sum_of_times. reflexivity.
Qed.

(** ** The dispatch loop *)

Lemma fold_collect (env : Environment) (reqs : list LLMRequest.t) :
  forall interface_results knowledge_results,
    fold_left (collect env) reqs (interface_results, knowledge_results)
    = (interface_results ++ map (collected env) (filter is_interface reqs),
       knowledge_results
       ++ map (collected env) (filter (fun req => negb (is_interface req)) reqs)).
Proof.
  induction reqs as [|req reqs IH]; intros irs krs; simpl.
  - now rewrite !app_nil_r.
  - change (LLMRequest.llm_type req =? "interface")%string with (is_interface req).
    destruct (is_interface req); simpl; rewrite IH, <- app_assoc; reflexivity.
Qed.

Lemma dispatch_partition (env : Environment) (reqs : list LLMRequest.t) :
  dispatch env reqs
  = (map (collected env) (filter is_interface reqs),
     map (collected env) (filter (fun req => negb (is_interface req)) reqs)).
Proof. unfold dispatch. now rewrite fold_collect. Qed.

Lemma filter_all {A : Type} (f : A -> bool) (l : list A) :
  (forall x, In x l -> f x = true) -> filter f l = l.
Proof.
  induction l as [|x l IH]; intros H; simpl; [reflexivity|].
  rewrite (H x (or_introl eq_refl)), IH; [reflexivity|].
  intros y Hy. apply H. now right.
Qed.

Lemma filter_none {A : Type} (f : A -> bool) (l : list A) :
  (forall x, In x l -> f x = false) -> filter f l = [].
Proof.
  induction l as [|x l IH]; intros H; simpl; [reflexivity|].
  rewrite (H x (or_introl eq_refl)). apply IH.
  intros y Hy. apply H. now right.
Qed.

Lemma dispatch_mcp (env : Environment) (prompt : string)
  (interface_llms knowledge_llms : list LLM) (temperature : Q) (max_tokens : Z) :
  dispatch env (mcp_requests prompt interface_llms knowledge_llms temperature max_tokens)
  = (map (collected env) (map (interface_request prompt temperature max_tokens) interface_llms),
     map (collected env) (map (knowledge_request prompt temperature max_tokens) knowledge_llms)).
Proof.
  rewrite dispatch_partition. unfold mcp_requests. rewrite !filter_app.
  rewrite (filter_all is_interface (map (interface_request _ _ _) interface_llms)).
  2:{ intros x Hx. apply in_map_iff in Hx. destruct Hx as (llm & <- & _). reflexivity. }
  rewrite (filter_none is_interface (map (knowledge_request _ _ _) knowledge_llms)).
  2:{ intros x Hx. apply in_map_iff in Hx. destruct Hx as (llm & <- & _). reflexivity. }
  rewrite (filter_none _ (map (interface_request _ _ _) interface_llms)).
  2:{ intros x Hx. apply in_map_iff in Hx. destruct Hx as (llm & <- & _). reflexivity. }
  rewrite (filter_all _ (map (knowledge_request _ _ _) knowledge_llms)).
  2:{ intros x Hx. apply in_map_iff in Hx. destruct Hx as (llm & <- & _). reflexivity. }
  now rewrite app_nil_r.
Qed.

(** The record built by [_execute_parallel_mcp], field by field. *)
Lemma _execute_parallel_mcp_result (env : Environment) (prompt : string)
  (interface_llms knowledge_llms : list LLM) (temperature : Q) (max_tokens : Z) :
  let interface_results :=
    map (collected env) (map (interface_request prompt temperature max_tokens) interface_llms) in
  let knowledge_results :=
    map (collected env) (map (knowledge_request prompt temperature max_tokens) knowledge_llms) in
  let out := _synthesize_parallel_results interface_results knowledge_results in
  let r := _execute_parallel_mcp env prompt interface_llms knowledge_llms temperature max_tokens in
  ParallelExecutionResult.success r = true
  /\ ParallelExecutionResult.llms_executed r = (len interface_results + len knowledge_results)%Z
  /\ ParallelExecutionResult.interface_llm_results r = interface_results
  /\ ParallelExecutionResult.knowledge_llm_results r = knowledge_results
  /\ ParallelExecutionResult.synthesized_result r = synthesized_text out
  /\ ParallelExecutionResult.confidence_score r = combined_confidence out
  /\ ParallelExecutionResult.parallel_speedup r = speedup_factor out
  /\ ParallelExecutionResult.error r = None.
Proof.
  intros irs krs out r. subst r. unfold _execute_parallel_mcp.
  rewrite dispatch_mcp. fold irs krs. fold out.
  destruct out as [[text confidence] speedup]. simpl. repeat split.
Qed.

Lemma len_nonzero {A : Type} (l : list A) : (len l =? 0)%Z = false <-> l <> [].
Proof.
  unfold len. destruct l; cbn; split; intros H;
    first [congruence | discriminate | reflexivity].
Qed.

(** Past the guard, the call returns the timed result of its strategy. *)
Lemma execute_parallel_result (env : Environment) (self : ParallelLLMExecutor) (a : CallArgs) :
  no_llms env a = false ->
  fst (execute_parallel env self a) = timed_result env a.
Proof. intros H. unfold execute_parallel. now rewrite H. Qed.

Lemma no_llms_false (env : Environment) (a : CallArgs) :
  no_llms env a = false <-> selected_interface env a <> [] \/ selected_knowledge env a <> [].
Proof.
  unfold no_llms. rewrite andb_false_iff, !len_nonzero. reflexivity.
Qed.

(** The parallel strategy, seen from the entry point. *)
Lemma execute_parallel_mcp (env : Environment) (self : ParallelLLMExecutor) (a : CallArgs) :
  no_llms env a = false ->
  arg_strategy a = PARALLEL ->
  let r := fst (execute_parallel env self a) in
  let out := _synthesize_parallel_results
               (ParallelExecutionResult.interface_llm_results r)
               (ParallelExecutionResult.knowledge_llm_results r) in
  ParallelExecutionResult.success r = true
  /\ ParallelExecutionResult.synthesized_result r = synthesized_text out
  /\ ParallelExecutionResult.confidence_score r = combined_confidence out
  /\ ParallelExecutionResult.parallel_speedup r = speedup_factor out
  /\ ParallelExecutionResult.interface_llm_results r
     = map (collected env)
         (map (interface_request (prompt a) (temperature a) (max_tokens a))
            (selected_interface env a))
  /\ ParallelExecutionResult.knowledge_llm_results r
     = map (collected env)
         (map (knowledge_request (prompt a) (temperature a) (max_tokens a))
            (selected_knowledge env a)).
Proof.
  intros Hguard Hs. rewrite (execute_parallel_result _ _ _ Hguard).
  unfold timed_result. rewrite Hs. cbn [run_strategy].
  destruct (_execute_parallel_mcp_result env (prompt a) (selected_interface env a)
              (selected_knowledge env a) (temperature a) (max_tokens a))
    as (H1 & H2 & H3 & H4 & H5 & H6 & H7 & H8).
  cbn [ParallelExecutionResult.set_total_processing_time_ms
       ParallelExecutionResult.success ParallelExecutionResult.synthesized_result
       ParallelExecutionResult.confidence_score ParallelExecutionResult.parallel_speedup
       ParallelExecutionResult.interface_llm_results
       ParallelExecutionResult.knowledge_llm_results].
  rewrite H3, H4. repeat split; assumption.
Qed.

Lemma map_nonempty {A B : Type} (f : A -> B) (l : list A) : l <> [] -> map f l <> [].
Proof. destruct l; [congruence|discriminate]. Qed.

(** C2 (amended).  Under the parallel strategy, when the individual results
    all have positive elapsed times, the reported speedup is the sum of the
    individual elapsed times divided by their maximum; interface times
    [500, 500] and knowledge times [300] give 2.6.  Under the consensus
    strategy the reported speedup is 0.8 x the number of collected results. *)
Theorem speedup_ratio (env : Environment) (self : ParallelLLMExecutor) (a : CallArgs) :
  no_llms env a = false ->
  let r := fst (execute_parallel env self a) in
  (arg_strategy a = PARALLEL ->
   Forall (fun t => 0 < t) (individual_times r) ->
   (exists slowest,
      is_maximum slowest (individual_times r)
      /\ ParallelExecutionResult.parallel_speedup r
         == sum_of_times (individual_times r) / slowest)
   /\ (processing_times (ParallelExecutionResult.interface_llm_results r) = [500; 500] ->
       processing_times (ParallelExecutionResult.knowledge_llm_results r) = [300] ->
       ParallelExecutionResult.parallel_speedup r == 2.6))
  /\ (arg_strategy a = CONSENSUS ->
      ParallelExecutionResult.parallel_speedup r
      == 0.8 * inject_Z (ParallelExecutionResult.llms_executed r)).
Proof.
  intros Hguard r. split.
  - intros Hs Hpos.
    destruct (execute_parallel_mcp env self a Hguard Hs) as (_ & _ & _ & Hsp & Hi & Hk).
    fold r in Hsp, Hi, Hk. rewrite Hsp, speedup_factor_synthesis. split.
    + apply synthesis_speedup_ratio; [|exact Hpos].
      unfold processing_times. rewrite Hi, Hk.
      apply no_llms_false in Hguard. intros Hnil.
      apply map_eq_nil, app_eq_nil in Hnil. destruct Hnil as [Hn1 Hn2].
      apply map_eq_nil, map_eq_nil in Hn1. apply map_eq_nil, map_eq_nil in Hn2.
      destruct Hguard; contradiction.
    + intros Ti Tk. unfold synthesis_speedup, processing_times in *.
      rewrite map_app, Ti, Tk. vm_compute. reflexivity.
  - intros Hs. subst r. rewrite (execute_parallel_result _ _ _ Hguard).
    unfold timed_result. rewrite Hs. cbn. lra.
Qed.

Lemma speedup_ratio_witness :
  ParallelExecutionResult.parallel_speedup example_result == 2.6.
Proof.
  assert (Hguard : no_llms answering (default_arguments fibonacci_prompt) = false)
    by reflexivity.
  destruct (speedup_ratio answering parallel_executor
              (default_arguments fibonacci_prompt) Hguard) as [Hpar _].
  destruct Hpar as [_ Hex].
  - reflexivity.
  - vm_compute. repeat constructor.
  - apply Hex; reflexivity.
Defined.

(** C2 as stated fails for the consensus strategy: three results with
    elapsed times 500, 500 and 300 ms report 3 x 0.8 = 2.4, not
    (500 + 500 + 300) / 500 = 2.6. *)
Lemma consensus_speedup_counterexample :
  individual_times consensus_result = [500; 500; 300]
  /\ ParallelExecutionResult.parallel_speedup consensus_result == 2.4
  /\ ~ ParallelExecutionResult.parallel_speedup consensus_result
       == (500 + 500 + 300) / 500.
Proof.
  split; [reflexivity|]. split; [reflexivity|].
  vm_compute. discriminate.
Qed.

(** ** Failed invocations *)

(** Splits a goal by strategy and closes the cases of the other strategies. *)
Ltac by_strategy :=
  repeat match goal with
         | |- _ /\ _ => split
         | |- _ -> _ => intros ?
         | H : _ \/ _ |- _ => destruct H
         | H : ?x = ?y |- _ => discriminate H
         end;
  try reflexivity.

(** The shape of a failed response of the invoker. *)
Lemma _execute_single_llm_failed (env : Environment) (req : LLMRequest.t) :
  LLMResponse.success (_execute_single_llm env req) = false ->
  LLMResponse.response_text (_execute_single_llm env req) = ""
  /\ LLMResponse.confidence_score (_execute_single_llm env req) = 0.0
  /\ exists e, LLMResponse.error (_execute_single_llm env req) = Some (str e).
Proof.
  unfold _execute_single_llm. destruct (run_model env req) as [text c n|e]; simpl.
  - discriminate.
  - intros _. repeat split. now exists e.
Qed.

Lemma successes_all_failed (rs : list LLMResponse.t) :
  Forall (fun x => LLMResponse.success x = false) rs -> successes rs = [].
Proof.
  intros H. apply filter_none. now apply Forall_forall.
Qed.

Lemma synthesize_all_failed (interface_results knowledge_results : list LLMResponse.t) :
  Forall (fun x => LLMResponse.success x = false) (interface_results ++ knowledge_results) ->
  synthesized_text (_synthesize_parallel_results interface_results knowledge_results)
  = "Unable to generate result from available LLMs"
  /\ combined_confidence (_synthesize_parallel_results interface_results knowledge_results)
     = 0.0.
Proof.
  intros H. apply Forall_app in H. destruct H as [Hi Hk].
  unfold _synthesize_parallel_results.
  rewrite (successes_all_failed _ Hi), (successes_all_failed _ Hk). simpl. split; reflexivity.
Qed.

(** The record built by [_execute_sequential]. *)
Lemma _execute_sequential_result (env : Environment) (prompt : string)
  (interface_llms knowledge_llms : list LLM) (temperature : Q) (max_tokens : Z) :
  let r := _execute_sequential env prompt interface_llms knowledge_llms temperature max_tokens in
  let out := _synthesize_parallel_results
               (ParallelExecutionResult.interface_llm_results r)
               (ParallelExecutionResult.knowledge_llm_results r) in
  ParallelExecutionResult.success r = true
  /\ ParallelExecutionResult.synthesized_result r = synthesized_text out
  /\ ParallelExecutionResult.confidence_score r = combined_confidence out
  /\ ParallelExecutionResult.parallel_speedup r = 0.5
  /\ ParallelExecutionResult.llms_executed r
     = (len (ParallelExecutionResult.interface_llm_results r)
        + len (ParallelExecutionResult.knowledge_llm_results r))%Z.
Proof.
  unfold _execute_sequential.
  destruct interface_llms as [|i il], knowledge_llms as [|k kl]; cbv zeta;
    match goal with
    | |- context [_synthesize_parallel_results ?x ?y] =>
        destruct (_synthesize_parallel_results x y) as [[text c] s] eqn:E
    end;
    cbn [ParallelExecutionResult.success ParallelExecutionResult.synthesized_result
         ParallelExecutionResult.confidence_score ParallelExecutionResult.parallel_speedup
         ParallelExecutionResult.llms_executed
         ParallelExecutionResult.interface_llm_results
         ParallelExecutionResult.knowledge_llm_results];
    try rewrite E; repeat split.
Qed.

(** The loop of [_execute_consensus] keeps the responses of the requests
    whose future returned in time, in submission order. *)
Lemma fold_consensus_collect (env : Environment) (reqs : list LLMRequest.t) :
  forall all_results,
    fold_left (consensus_collect env) reqs all_results
    = all_results ++ map (_execute_single_llm env) (filter (on_time env) reqs).
Proof.
  induction reqs as [|req reqs IH]; intros acc; simpl.
  - now rewrite app_nil_r.
  - rewrite IH. unfold consensus_collect, future_result.
    destruct (on_time env req); simpl; [now rewrite <- app_assoc|reflexivity].
Qed.

Lemma In_py_max_key {A : Type} (key : A -> Q) (l : list A) (b : A) :
  py_max_key key l = Some b -> In b l.
Proof.
  intros H. apply py_max_key_split in H. destruct H as (e & t & -> & _).
  apply in_or_app. right. now left.
Qed.

Lemma In_py_take {A : Type} (n : Z) (l : list A) (x : A) : In x (py_take n l) -> In x l.
Proof.
  unfold py_take. destruct (0 <=? n)%Z; intros H;
    match type of H with
    | In _ (firstn ?k _) => rewrite <- (firstn_skipn k l)
    end; apply in_or_app; left; exact H.
Qed.

Lemma get_llms_by_type_model_type (env : Environment) (ty : string) (llm : LLM) :
  In llm (get_llms_by_type env ty) -> model_type llm = ty.
Proof.
  unfold get_llms_by_type. intros H. apply filter_In in H.
  destruct H as [_ H]. now apply String.eqb_eq.
Qed.

Lemma _execute_single_llm_type (env : Environment) (req : LLMRequest.t) :
  LLMResponse.llm_type (_execute_single_llm env req) = LLMRequest.llm_type req
  /\ LLMResponse.llm_id (_execute_single_llm env req) = LLMRequest.llm_id req.
Proof.
  unfold _execute_single_llm. destruct (run_model env req); split; reflexivity.
Qed.

Lemma selected_model_type (env : Environment) (a : CallArgs) (llm : LLM) :
  In llm (selected_interface env a ++ selected_knowledge env a) ->
  model_type llm = "interface" \/ model_type llm = "knowledge".
Proof.
  intros H. apply in_app_or in H. destruct H as [H|H]; apply In_py_take in H;
    apply get_llms_by_type_model_type in H; auto.
Qed.

(** Every collected response is listed under one of the two classes. *)
Lemma consensus_results_classified (env : Environment) (a : CallArgs) (b : LLMResponse.t) :
  In b (consensus_results env a) ->
  In b (filter (fun r => LLMResponse.llm_type r =? "interface")%string (consensus_results env a)
        ++ filter (fun r => LLMResponse.llm_type r =? "knowledge")%string (consensus_results env a))
  /\ exists req, b = _execute_single_llm env req.
Proof.
  intros Hb. split.
  - pose proof Hb as Hb'. unfold consensus_results in Hb'.
    apply in_map_iff in Hb'. destruct Hb' as (req & <- & Hreq).
    apply filter_In in Hreq. destruct Hreq as [Hreq _].
    unfold consensus_requests in Hreq. apply in_map_iff in Hreq.
    destruct Hreq as (llm & <- & Hllm). apply In_py_take in Hllm.
    apply in_or_app.
    destruct (selected_model_type env a llm Hllm) as [Ht|Ht]; [left|right];
      apply filter_In; (split; [exact Hb|]);
      rewrite (proj1 (_execute_single_llm_type _ _)); simpl; rewrite Ht; reflexivity.
  - unfold consensus_results in Hb. apply in_map_iff in Hb.
    destruct Hb as (req & <- & _). now exists req.
Qed.

(** The consensus strategy, seen from the entry point. *)
Lemma execute_parallel_consensus (env : Environment) (self : ParallelLLMExecutor) (a : CallArgs) :
  no_llms env a = false ->
  arg_strategy a = CONSENSUS ->
  let r := fst (execute_parallel env self a) in
  let best := py_max_key LLMResponse.confidence_score (consensus_results env a) in
  ParallelExecutionResult.llms_executed r = len (consensus_results env a)
  /\ ParallelExecutionResult.interface_llm_results r
     = filter (fun r => LLMResponse.llm_type r =? "interface")%string (consensus_results env a)
  /\ ParallelExecutionResult.knowledge_llm_results r
     = filter (fun r => LLMResponse.llm_type r =? "knowledge")%string (consensus_results env a)
  /\ ParallelExecutionResult.success r = match best with Some _ => true | None => false end
  /\ ParallelExecutionResult.synthesized_result r
     = match best with Some b => LLMResponse.response_text b | None => "" end
  /\ ParallelExecutionResult.confidence_score r
     = match best with Some b => LLMResponse.confidence_score b | None => 0.0 end.
Proof.
  intros Hguard Hs. rewrite (execute_parallel_result _ _ _ Hguard).
  unfold timed_result. rewrite Hs. cbn [run_strategy]. unfold _execute_consensus.
  rewrite fold_consensus_collect. cbn [app]. fold (consensus_results env a).
  cbn. repeat split.
Qed.

(** C1 (amended).  When at least one model is selected and every invoked
    model call fails, the combined confidence is 0 under every strategy.
    Under [parallel] and [sequential] the result still has success = true
    and carries the fixed text "Unable to generate result from available
    LLMs"; under [interface_only] and [knowledge_only] success is false and
    the text is empty; under [consensus] the text is empty. *)
Theorem all_calls_fail (env : Environment) (self : ParallelLLMExecutor) (a : CallArgs) :
  no_llms env a = false ->
  let r := fst (execute_parallel env self a) in
  all_failed r ->
  ParallelExecutionResult.confidence_score r == 0
  /\ (arg_strategy a = PARALLEL \/ arg_strategy a = SEQUENTIAL ->
      ParallelExecutionResult.success r = true
      /\ ParallelExecutionResult.synthesized_result r
         = "Unable to generate result from available LLMs")
  /\ (arg_strategy a = INTERFACE_ONLY \/ arg_strategy a = KNOWLEDGE_ONLY ->
      ParallelExecutionResult.success r = false
      /\ ParallelExecutionResult.synthesized_result r = "")
  /\ (arg_strategy a = CONSENSUS ->
      ParallelExecutionResult.synthesized_result r = "").
Proof.
  intros Hguard r Hfail. unfold all_failed, individual_results in Hfail.
  destruct (arg_strategy a) eqn:Hs.
  - (* parallel *)
    destruct (execute_parallel_mcp env self a Hguard Hs) as (Hok & Htext & Hconf & _).
    fold r in Hok, Htext, Hconf.
    destruct (synthesize_all_failed _ _ Hfail) as [Ht Hc].
    rewrite Hconf, Hc, Htext, Ht, Hok.
    by_strategy.
  - (* interface_only *)
    subst r. rewrite (execute_parallel_result _ _ _ Hguard) in *.
    unfold timed_result in *. rewrite Hs in *. cbn [run_strategy] in *.
    unfold _execute_single_type in *.
    destruct (selected_interface env a) as [|llm rest].
    + cbn. by_strategy.
    + cbn in Hfail. apply Forall_inv in Hfail.
      destruct (_execute_single_llm_failed _ _ Hfail) as (Ht & Hc & _).
      cbn. rewrite Ht, Hc, Hfail. by_strategy.
  - (* knowledge_only *)
    subst r. rewrite (execute_parallel_result _ _ _ Hguard) in *.
    unfold timed_result in *. rewrite Hs in *. cbn [run_strategy] in *.
    unfold _execute_single_type in *.
    destruct (selected_knowledge env a) as [|llm rest].
    + cbn. by_strategy.
    + cbn in Hfail. apply Forall_inv in Hfail.
      destruct (_execute_single_llm_failed _ _ Hfail) as (Ht & Hc & _).
      cbn. rewrite Ht, Hc, Hfail. by_strategy.
  - (* sequential *)
    subst r. rewrite (execute_parallel_result _ _ _ Hguard) in *.
    unfold timed_result in *. rewrite Hs in *. cbn [run_strategy] in *.
    destruct (_execute_sequential_result env (prompt a) (selected_interface env a)
                (selected_knowledge env a) (temperature a) (max_tokens a))
      as (Hok & Htext & Hconf & _).
    cbn [ParallelExecutionResult.set_total_processing_time_ms
         ParallelExecutionResult.success ParallelExecutionResult.synthesized_result
         ParallelExecutionResult.confidence_score
         ParallelExecutionResult.interface_llm_results
         ParallelExecutionResult.knowledge_llm_results] in *.
    destruct (synthesize_all_failed _ _ Hfail) as [Ht Hc].
    rewrite Hconf, Hc, Htext, Ht, Hok.
    by_strategy.
  - (* consensus *)
    destruct (execute_parallel_consensus env self a Hguard Hs)
      as (_ & Hi & Hk & _ & Htext & Hconf).
    fold r in Hi, Hk, Htext, Hconf. rewrite Hi, Hk in Hfail.
    rewrite Hconf, Htext.
    destruct (py_max_key LLMResponse.confidence_score (consensus_results env a))
      as [b|] eqn:Eb.
    + apply In_py_max_key in Eb.
      destruct (consensus_results_classified env a b Eb) as [Hin [req ->]].
      rewrite Forall_forall in Hfail. specialize (Hfail _ Hin).
      destruct (_execute_single_llm_failed _ _ Hfail) as (Ht & Hc & _).
      rewrite Ht, Hc. by_strategy.
    + by_strategy.
Qed.

Lemma all_calls_fail_witness :
  ParallelExecutionResult.confidence_score failed_result == 0
  /\ ParallelExecutionResult.success failed_result = true.
Proof.
  assert (Hguard : no_llms raising (default_arguments fibonacci_prompt) = false)
    by reflexivity.
  assert (Hfail : all_failed failed_result) by (vm_compute; repeat constructor).
  destruct (all_calls_fail raising parallel_executor (default_arguments fibonacci_prompt)
              Hguard Hfail) as (Hc & Hpar & _).
  split; [exact Hc|]. apply Hpar. now left.
Defined.

(** C1 as stated fails under the parallel strategy: with three models
    selected and every call failing, the result has success = true and a
    non-empty synthesized text. *)
Lemma aggregate_failure_counterexample :
  no_llms raising (default_arguments fibonacci_prompt) = false
  /\ all_failed failed_result
  /\ ~ (ParallelExecutionResult.success failed_result = false
        /\ ParallelExecutionResult.confidence_score failed_result == 0
        /\ ParallelExecutionResult.synthesized_result failed_result = "").
Proof.
  split; [reflexivity|]. split; [vm_compute; repeat constructor|].
  intros (H & _). vm_compute in H. discriminate H.
Qed.

(** ** No models available *)

Lemma no_llms_true (env : Environment) (a : CallArgs) :
  no_llms env a = true <-> selected_interface env a = [] /\ selected_knowledge env a = [].
Proof.
  unfold no_llms, len. rewrite andb_true_iff, !Z.eqb_eq.
  destruct (selected_interface env a), (selected_knowledge env a); cbn;
    split; intros [H1 H2]; split; congruence || discriminate || reflexivity.
Qed.

(** C4 (amended).  When neither an interface nor a knowledge model is
    selected, every strategy returns success = false, zero models executed
    and the error text "No LLMs available".  Under [interface_only]
    ([knowledge_only]) with no interface (knowledge) model but some model of
    the other class, the result has success = false, zero models executed
    and the error text "No interface LLMs available" ("No knowledge LLMs
    available").  Under [parallel] and [sequential] a single empty class is
    not an error: the execution proceeds with success = true. *)
Theorem no_models_available (env : Environment) (self : ParallelLLMExecutor) (a : CallArgs) :
  let r := fst (execute_parallel env self a) in
  (selected_interface env a = [] -> selected_knowledge env a = [] ->
   ParallelExecutionResult.success r = false
   /\ ParallelExecutionResult.llms_executed r = 0%Z
   /\ ParallelExecutionResult.error r = Some "No LLMs available")
  /\ (arg_strategy a = INTERFACE_ONLY ->
      selected_interface env a = [] -> selected_knowledge env a <> [] ->
      ParallelExecutionResult.success r = false
      /\ ParallelExecutionResult.llms_executed r = 0%Z
      /\ ParallelExecutionResult.error r = Some "No interface LLMs available")
  /\ (arg_strategy a = KNOWLEDGE_ONLY ->
      selected_knowledge env a = [] -> selected_interface env a <> [] ->
      ParallelExecutionResult.success r = false
      /\ ParallelExecutionResult.llms_executed r = 0%Z
      /\ ParallelExecutionResult.error r = Some "No knowledge LLMs available")
  /\ (arg_strategy a = PARALLEL \/ arg_strategy a = SEQUENTIAL ->
      selected_interface env a <> [] \/ selected_knowledge env a <> [] ->
      ParallelExecutionResult.success r = true
      /\ ParallelExecutionResult.error r = None).
Proof.
  intros r. subst r. split; [|split; [|split]].
  - intros Hi Hk. unfold execute_parallel.
    rewrite (proj2 (no_llms_true env a) (conj Hi Hk)). cbn. repeat split.
  - intros Hs Hi Hk.
    assert (Hguard : no_llms env a = false) by (apply no_llms_false; now right).
    rewrite (execute_parallel_result _ _ _ Hguard). unfold timed_result.
    rewrite Hs, Hi. cbn. repeat split.
  - intros Hs Hk Hi.
    assert (Hguard : no_llms env a = false) by (apply no_llms_false; now left).
    rewrite (execute_parallel_result _ _ _ Hguard). unfold timed_result.
    rewrite Hs, Hk. cbn. repeat split.
  - intros Hs Hsome.
    assert (Hguard : no_llms env a = false) by now apply no_llms_false.
    destruct Hs as [Hs|Hs].
    + destruct (execute_parallel_mcp env self a Hguard Hs) as (Hok & _).
      split; [exact Hok|].
      rewrite (execute_parallel_result _ _ _ Hguard). unfold timed_result.
      rewrite Hs. cbn [run_strategy].
      destruct (_execute_parallel_mcp_result env (prompt a) (selected_interface env a)
                  (selected_knowledge env a) (temperature a) (max_tokens a))
        as (_ & _ & _ & _ & _ & _ & _ & He).
      exact He.
    + rewrite (execute_parallel_result _ _ _ Hguard). unfold timed_result.
      rewrite Hs. cbn [run_strategy].
      destruct (_execute_sequential_result env (prompt a) (selected_interface env a)
                  (selected_knowledge env a) (temperature a) (max_tokens a))
        as (Hok & _).
      split; [exact Hok|].
      unfold _execute_sequential.
      destruct (_synthesize_parallel_results _ _) as [[text c] s]. reflexivity.
Qed.

Lemma no_models_available_witness :
  ParallelExecutionResult.success uninstalled_result = false
  /\ ParallelExecutionResult.llms_executed uninstalled_result = 0%Z
  /\ ParallelExecutionResult.error uninstalled_result = Some "No LLMs available".
Proof.
  destruct (no_models_available uninstalled parallel_executor
              (default_arguments fibonacci_prompt)) as [Hnone _].
  apply Hnone; reflexivity.
Defined.

(** C4 as stated fails on the error text: with an empty catalogue the
    error reads "No LLMs available", not "no models available". *)
Lemma no_models_error_counterexample :
  selected_interface uninstalled (default_arguments fibonacci_prompt) = []
  /\ selected_knowledge uninstalled (default_arguments fibonacci_prompt) = []
  /\ ParallelExecutionResult.error uninstalled_result = Some "No LLMs available"
  /\ ParallelExecutionResult.error uninstalled_result <> Some "no models available".
Proof. repeat split; try reflexivity. vm_compute. discriminate. Qed.

(** ** Timeouts *)

(** The invoker is total, and a failure it reports has success = false,
    confidence 0, an empty text and the error [str(e)]. *)
Lemma invoker_failure_shape (env : Environment) (req : LLMRequest.t) (e : PyException) :
  run_model env req = Raised e ->
  LLMResponse.success (_execute_single_llm env req) = false
  /\ LLMResponse.confidence_score (_execute_single_llm env req) = 0.0
  /\ LLMResponse.response_text (_execute_single_llm env req) = ""
  /\ LLMResponse.error (_execute_single_llm env req) = Some (str e).
Proof. intros H. unfold _execute_single_llm. rewrite H. repeat split. Qed.

(** A call that misses its deadline under the parallel strategy is recorded
    as a failure whose error is [str] of the timeout exception. *)
Lemma collected_timeout (env : Environment) (req : LLMRequest.t) :
  on_time env req = false ->
  LLMResponse.success (collected env req) = false
  /\ LLMResponse.confidence_score (collected env req) = 0.0
  /\ LLMResponse.response_text (collected env req) = ""
  /\ LLMResponse.error (collected env req) = Some (str TimeoutError).
Proof. intros H. unfold collected, future_result. rewrite H. repeat split. Qed.

(** C5.  The failing input: the default parallel request when every model
    call exceeds its 30 second deadline.  The three calls are recorded as
    failures with confidence 0 and empty text, but their error string is
    empty as well, whereas the claim requires a non-empty, distinguishable
    error. *)
Theorem timeout_error_string_is_empty :
  map LLMResponse.success (individual_results stalled_result) = [false; false; false]
  /\ map LLMResponse.response_text (individual_results stalled_result) = [""; ""; ""]
  /\ map LLMResponse.error (individual_results stalled_result)
     = [Some ""; Some ""; Some ""].
Proof. repeat split. Qed.

(** ** Cardinality *)

(** The collection loop of the parallel strategy records one response per
    request, carrying the identifier of its request. *)
Lemma dispatch_cardinality (env : Environment) (reqs : list LLMRequest.t) :
  (List.length (fst (dispatch env reqs)) + List.length (snd (dispatch env reqs)))%nat
  = List.length reqs
  /\ map LLMResponse.llm_id (fst (dispatch env reqs))
     = map LLMRequest.llm_id (filter is_interface reqs)
  /\ map LLMResponse.llm_id (snd (dispatch env reqs))
     = map LLMRequest.llm_id (filter (fun req => negb (is_interface req)) reqs).
Proof.
  rewrite dispatch_partition. cbn [fst snd]. rewrite !length_map.
  assert (Hid : forall l, map LLMResponse.llm_id (map (collected env) l)
                          = map LLMRequest.llm_id l).
  { intros l. rewrite map_map. apply map_ext. intros req.
    unfold collected, future_result. destruct (on_time env req); [|reflexivity].
    apply _execute_single_llm_type. }
  rewrite !Hid. repeat split.
  induction reqs as [|req reqs IH]; [reflexivity|].
  simpl. destruct (is_interface req); simpl; lia.
Qed.

(** C6.  The failing input: the default request under the consensus
    strategy when every model call exceeds its deadline.  Three requests are
    dispatched and no result is produced: the timed-out requests are dropped,
    where the parallel strategy records an error response for each. *)
Theorem consensus_drops_timed_out_requests :
  List.length stalled_consensus_requests = 3%nat
  /\ ParallelExecutionResult.llms_executed stalled_consensus_result = 0%Z
  /\ individual_results stalled_consensus_result = []
  /\ List.length (individual_results stalled_result) = 3%nat.
Proof. repeat split. Qed.

(** ** The ledger over a sequence of calls *)

(** What one call does to the ledger. *)
Lemma execute_parallel_ledger (env : Environment) (self : ParallelLLMExecutor) (a : CallArgs) :
  let self' := snd (execute_parallel env self a) in
  if no_llms env a
  then statistics self' = statistics self
       /\ execution_history self' = execution_history self
  else statistics self'
       = statistics (_update_statistics self (timed_result env a))
       /\ execution_history self' = execution_history self ++ [summary (env, a)].
Proof.
  unfold execute_parallel. destruct (no_llms env a); cbn; split; reflexivity.
Qed.

Lemma run_calls_cons (self : ParallelLLMExecutor) (call : Environment * CallArgs)
  (calls : list (Environment * CallArgs)) :
  run_calls self (call :: calls)
  = run_calls (snd (execute_parallel (fst call) self (snd call))) calls.
Proof. reflexivity. Qed.

Lemma len_cons {A : Type} (x : A) (l : list A) : len (x :: l) = (len l + 1)%Z.
Proof. unfold len. cbn [List.length]. lia. Qed.

(** The counters after a sequence of calls, from any starting ledger. *)
Lemma run_calls_counters (calls : list (Environment * CallArgs)) :
  forall self,
    let st := statistics (run_calls self calls) in
    total_executions st = (total_executions (statistics self) + len (recorded calls))%Z
    /\ (parallel_executions st + single_executions st)%Z
       = (parallel_executions (statistics self) + single_executions (statistics self)
          + len (recorded calls))%Z.
Proof.
  induction calls as [|[env a] calls IH]; intros self.
  - cbn. unfold len. cbn. split; lia.
  - cbv zeta. rewrite run_calls_cons. cbn [fst snd].
    specialize (IH (snd (execute_parallel env self a))). cbv zeta in IH.
    destruct IH as [IHt IHp]. rewrite IHt, IHp.
    pose proof (execute_parallel_ledger env self a) as Hl. cbv zeta in Hl.
    unfold recorded. cbn [filter fst snd]. fold (recorded calls).
    destruct (no_llms env a); destruct Hl as [Hst _]; rewrite Hst; cbn [negb].
    + split; reflexivity.
    + rewrite len_cons. unfold _update_statistics. cbn [statistics total_executions
        parallel_executions single_executions].
      destruct (1 <? ParallelExecutionResult.llms_executed (timed_result env a))%Z;
        split; lia.
Qed.

(** The history after a sequence of calls, from any starting ledger. *)
Lemma run_calls_history (calls : list (Environment * CallArgs)) :
  forall self,
    execution_history (run_calls self calls)
    = execution_history self ++ map summary (recorded calls).
Proof.
  induction calls as [|[env a] calls IH]; intros self.
  - cbn. now rewrite app_nil_r.
  - rewrite run_calls_cons, IH. cbn [fst snd].
    pose proof (execute_parallel_ledger env self a) as Hl. cbv zeta in Hl.
    unfold recorded. cbn [filter fst snd]. fold (recorded calls).
    destruct (no_llms env a); destruct Hl as [_ Hh]; rewrite Hh; cbn [negb map].
    + reflexivity.
    + now rewrite <- app_assoc.
Qed.

Lemma recorded_all (calls : list (Environment * CallArgs)) :
  (forall call, In call calls -> no_llms (fst call) (snd call) = false) ->
  recorded calls = calls.
Proof.
  intros H. apply filter_all. intros call Hc. now rewrite (H call Hc).
Qed.

(** C7 (amended).  After any sequence of K calls on a fresh executor,
    totalExecutions equals the number of calls that selected at least one
    model (a call that finds no interface and no knowledge model returns
    before the ledger is touched), and parallelExecutions + singleExecutions
    equals totalExecutions; hence both equal K when every call selects at
    least one model. *)
Theorem statistics_counters (calls : list (Environment * CallArgs)) (workers : Z) :
  let st := statistics (run_calls (__init__ workers) calls) in
  total_executions st = len (recorded calls)
  /\ (parallel_executions st + single_executions st)%Z = total_executions st
  /\ ((forall call, In call calls -> no_llms (fst call) (snd call) = false) ->
      total_executions st = len calls
      /\ (parallel_executions st + single_executions st)%Z = len calls).
Proof.
  intros st. subst st.
  destruct (run_calls_counters calls (__init__ workers)) as [Ht Hp].
  cbn [__init__ statistics total_executions parallel_executions single_executions] in Ht, Hp.
  rewrite Hp, Ht. split; [lia|]. split; [lia|].
  intros Hall. rewrite (recorded_all calls Hall). split; lia.
Qed.

Lemma statistics_counters_witness :
  total_executions (statistics (run_calls parallel_executor eleven_calls)) = 11%Z
  /\ (parallel_executions (statistics (run_calls parallel_executor eleven_calls))
      + single_executions (statistics (run_calls parallel_executor eleven_calls)))%Z = 11%Z.
Proof.
  destruct (statistics_counters eleven_calls 8) as (_ & _ & Hall).
  apply Hall. intros call Hc. apply repeat_spec in Hc. subst call. reflexivity.
Defined.

(** C7 as stated fails for a call that finds no models: after that one call
    the ledger still counts zero executions. *)
Lemma unrecorded_call_counterexample :
  len unanswerable_call = 1%Z
  /\ total_executions (statistics (run_calls parallel_executor unanswerable_call)) = 0%Z
  /\ total_executions (statistics (run_calls parallel_executor unanswerable_call))
     <> len unanswerable_call.
Proof. repeat split. vm_compute. discriminate. Qed.

(** ** The recent history *)

Lemma py_last_suffix {A : Type} (n : nat) (l : list A) :
  (exists older, l = older ++ py_last n l)
  /\ List.length (py_last n l) = Nat.min n (List.length l).
Proof.
  unfold py_last. split.
  - exists (firstn (List.length l - n) l). symmetry. apply firstn_skipn.
  - rewrite length_skipn. lia.
Qed.

(** C8 (amended).  The history store is an unbounded list: every execution
    that selected at least one model appends one summary and nothing is
    evicted, so it holds the summaries of all recorded executions in order
    and [history_count] reports their number.  The snapshot exposes the last
    ten of them: [recent_executions] is a suffix of the history, of length
    min(10, number of recorded executions), hence exactly the ten most
    recent summaries, oldest first, after more than ten executions. *)
Theorem recent_history (calls : list (Environment * CallArgs)) (workers : Z) :
  let self := run_calls (__init__ workers) calls in
  let summaries := map summary (recorded calls) in
  execution_history self = summaries
  /\ history_count (get_statistics self) = len summaries
  /\ (exists older, summaries = older ++ recent_executions (get_statistics self))
  /\ List.length (recent_executions (get_statistics self))
     = Nat.min 10 (List.length summaries)
  /\ ((10 < List.length summaries)%nat ->
      List.length (recent_executions (get_statistics self)) = 10%nat).
Proof.
  intros self summaries.
  assert (Hh : execution_history self = summaries).
  { subst self summaries. rewrite run_calls_history. reflexivity. }
  unfold get_statistics. cbn [history_count recent_executions]. rewrite Hh.
  destruct (py_last_suffix 10 summaries) as [Hsuffix Hlen].
  split; [reflexivity|]. split; [reflexivity|]. split; [exact Hsuffix|].
  split; [exact Hlen|]. intros Hmore. rewrite Hlen. lia.
Qed.

Lemma recent_history_witness :
  List.length (recent_executions (get_statistics (run_calls parallel_executor eleven_calls)))
  = 10%nat.
Proof.
  destruct (recent_history eleven_calls 8) as (_ & _ & _ & _ & Hten).
  apply Hten. vm_compute. lia.
Defined.

(** C8 as stated fails on the capacity: after eleven executions the
    history store holds eleven summaries, none evicted. *)
Lemma history_unbounded_counterexample :
  List.length (execution_history (run_calls parallel_executor eleven_calls)) = 11%nat
  /\ history_count (get_statistics (run_calls parallel_executor eleven_calls)) = 11%Z
  /\ ~ (List.length (execution_history (run_calls parallel_executor eleven_calls)) <= 10)%nat.
Proof.
  split; [vm_compute; reflexivity|]. split; [vm_compute; reflexivity|].
  intros H. vm_compute in H. lia.
Qed.

(** ** Time saved *)



(** ** Snapshots and concurrent executions *)

(** The four stores, one after the other, are [_update_statistics]. *)
Lemma _update_statistics_stores (self : ParallelLLMExecutor)
  (result : ParallelExecutionResult.t) :
  _update_statistics self result
  = store_total_time_saved
      (store_average_speedup
         (store_execution_class (store_total_executions self) result) result)
      result.
Proof. reflexivity. Qed.

(** The three reads, one after the other in either order, are
    [get_statistics]. *)
Lemma get_statistics_reads (self : ParallelLLMExecutor) (reads : list LedgerStep) :
  reads = reads_copy_first \/ reads = reads_copy_last ->
  run_schedule self reads = (self, [get_statistics self]).
Proof. intros [->| ->]; reflexivity. Qed.

(** Past the guard, the call performs exactly its ledger steps. *)
Lemma execute_parallel_ledger_steps (env : Environment) (self : ParallelLLMExecutor)
  (a : CallArgs) :
  no_llms env a = false ->
  snd (execute_parallel env self a)
  = fst (run_schedule (store_context self (module a) (context a)) (ledger_steps env a)).
Proof. intros H. unfold execute_parallel. rewrite H. reflexivity. Qed.

(** Between calls the counters and the history agree. *)
Lemma run_calls_consistent (calls : list (Environment * CallArgs)) (workers : Z) :
  consistent (get_statistics (run_calls (__init__ workers) calls)).
Proof.
  unfold consistent, get_statistics. cbn [snapshot_statistics history_count].
  destruct (run_calls_counters calls (__init__ workers)) as [Ht _].
  rewrite Ht, run_calls_history. cbn. unfold len. rewrite length_map. lia.
Qed.

Lemma len_app_one {A : Type} (l : list A) (x : A) : len (l ++ [x]) = (len l + 1)%Z.
Proof. unfold len. rewrite length_app. cbn. lia. Qed.

(** One reader against one execution, in every schedule that keeps the
    program order of both: the snapshot never differs by more than one. *)
Lemma interleaved_snapshot (self : ParallelLLMExecutor)
  (result : ParallelExecutionResult.t) (entry : HistoryEntry)
  (reads schedule : list LedgerStep) :
  consistent (get_statistics self) ->
  reads = reads_copy_first \/ reads = reads_copy_last ->
  interleaving
    [StoreTotalExecutions; StoreExecutionClass result; StoreAverageSpeedup result;
     StoreTotalTimeSaved result; AppendHistory entry]
    reads schedule ->
  forall snap, In snap (snd (run_schedule self schedule)) ->
    (history_count snap - 1 <= total_executions (snapshot_statistics snap)
     <= history_count snap + 1)%Z.
Proof.
  unfold consistent, get_statistics. cbn [snapshot_statistics history_count].
  intros Hself Hreads Hint snap Hsnap.
  destruct Hreads as [->| ->]; unfold reads_copy_first, reads_copy_last in Hint;
    repeat match goal with
           | H : interleaving _ _ _ |- _ => inversion H; clear H; subst
           end;
    cbn in Hsnap; destruct Hsnap as [<-|[]];
    cbn [snapshot_statistics history_count total_executions];
    rewrite ?len_app_one; lia.
Qed.

(** C9 (amended).  The ledger has no lock: an execution performs the four
    stores of its counter update and the append of its history entry as
    separate unsynchronised steps, and a snapshot is three separate reads.
    A snapshot taken between calls is consistent (total_executions equals
    history_count), and so is the snapshot of a reader that runs wholly
    before or wholly after an execution.  A snapshot that overlaps one
    execution can be torn in either direction: it can show the counter
    update without the history append (total_executions = history_count +
    1) or the history append without the counter update (total_executions =
    history_count - 1); the two never differ by more than one. *)
Theorem snapshot_consistency (calls : list (Environment * CallArgs)) (workers : Z)
  (env : Environment) (a : CallArgs) (reads schedule : list LedgerStep) :
  let self := run_calls (__init__ workers) calls in
  consistent (get_statistics self)
  /\ (reads = reads_copy_first \/ reads = reads_copy_last ->
      (schedule = ledger_steps env a ++ reads \/ schedule = reads ++ ledger_steps env a ->
       Forall consistent (snd (run_schedule self schedule)))
      /\ (interleaving (ledger_steps env a) reads schedule ->
          forall snap, In snap (snd (run_schedule self schedule)) ->
            (history_count snap - 1 <= total_executions (snapshot_statistics snap)
             <= history_count snap + 1)%Z))
  /\ (exists torn snap,
        interleaving (ledger_steps env a) reads_copy_first torn
        /\ snd (run_schedule self torn) = [snap]
        /\ total_executions (snapshot_statistics snap) = (history_count snap + 1)%Z)
  /\ (exists late snap,
        interleaving (ledger_steps env a) reads_copy_first late
        /\ snd (run_schedule self late) = [snap]
        /\ total_executions (snapshot_statistics snap) = (history_count snap - 1)%Z).
Proof.
  intros self. pose proof (run_calls_consistent calls workers) as Hself. fold self in Hself.
  split; [exact Hself|]. split; [|split].
  - intros Hreads. split.
    + unfold consistent, get_statistics in *.
      cbn [snapshot_statistics history_count] in *.
      intros [->| ->]; destruct Hreads as [->| ->]; cbn; repeat constructor;
        cbn [snapshot_statistics history_count total_executions];
        rewrite ?len_app_one; lia.
    + intros Hint. eapply interleaved_snapshot; eassumption.
  - unfold consistent, get_statistics in Hself.
    cbn [snapshot_statistics history_count] in Hself.
    eexists (StoreTotalExecutions :: reads_copy_first ++ tl (ledger_steps env a)).
    eexists. split; [|split].
    + cbn. repeat constructor.
    + cbn. reflexivity.
    + cbn [snapshot_statistics history_count total_executions]. lia.
  - unfold consistent, get_statistics in Hself.
    cbn [snapshot_statistics history_count] in Hself.
    eexists (CopyStatistics :: ledger_steps env a
             ++ [ReadHistoryCount; ReadRecentExecutions]).
    eexists. split; [|split].
    + cbn. repeat constructor.
    + cbn. reflexivity.
    + cbn [snapshot_statistics history_count total_executions].
      rewrite len_app_one. lia.
Qed.

Lemma snapshot_consistency_witness :
  Forall consistent
    (snd (run_schedule (run_calls parallel_executor eleven_calls)
            (example_steps ++ reads_copy_first))).
Proof.
  destruct (snapshot_consistency eleven_calls 8 answering
              (default_arguments fibonacci_prompt) reads_copy_first
              (example_steps ++ reads_copy_first))
    as (_ & Hreads & _).
  destruct (Hreads (or_introl eq_refl)) as [Hserial _].
  apply Hserial. left. reflexivity.
Defined.

(** C9 as stated fails: the schedule in which the reader runs after the
    store of the execution count and before the append to the history is a
    schedule of the two threads, and its snapshot counts one execution with
    an empty history.  In the schedule in which the reader copies the
    statistics first and reads the history after the whole execution, the
    snapshot counts no execution and a history of one entry. *)
Lemma torn_snapshot_counterexample :
  interleaving example_steps reads_copy_first torn_schedule
  /\ consistent (get_statistics parallel_executor)
  /\ map (fun snap => (total_executions (snapshot_statistics snap), history_count snap))
       (snd (run_schedule parallel_executor torn_schedule)) = [(1%Z, 0%Z)]
  /\ ~ Forall consistent (snd (run_schedule parallel_executor torn_schedule))
  /\ interleaving example_steps reads_copy_first late_schedule
  /\ map (fun snap => (total_executions (snapshot_statistics snap), history_count snap))
       (snd (run_schedule parallel_executor late_schedule)) = [(0%Z, 1%Z)].
Proof.
  split; [|split; [|split; [|split; [|split]]]].
  - unfold torn_schedule, example_steps, ledger_steps. cbn. repeat constructor.
  - reflexivity.
  - reflexivity.
  - intros H. apply Forall_inv in H. vm_compute in H. discriminate H.
  - unfold late_schedule, example_steps, ledger_steps. cbn. repeat constructor.
  - reflexivity.
Qed.

(** * Further properties *)

(** ** Strategy names *)

(** X1.  The strategy names round-trip through [execute_with_parallel_llms]:
    the name of every strategy selects that strategy, and any other string
    selects the parallel strategy. *)
Theorem strategy_enum_value :
  (forall s, strategy_enum (value s) = s)
  /\ (forall name,
        strategy_enum name = PARALLEL \/ value (strategy_enum name) = name).
Proof.
  split.
  - intros []; reflexivity.
  - intros name. unfold strategy_enum.
    destruct (name =? "interface_only")%string eqn:E1;
      [right; apply String.eqb_eq in E1; now subst|].
    destruct (name =? "knowledge_only")%string eqn:E2;
      [right; apply String.eqb_eq in E2; now subst|].
    destruct (name =? "sequential")%string eqn:E3;
      [right; apply String.eqb_eq in E3; now subst|].
    destruct (name =? "consensus")%string eqn:E4;
      [right; apply String.eqb_eq in E4; now subst|].
    now left.
Qed.

(** ** The catalogue *)

Lemma find_first {A : Type} (f : A -> bool) (l : list A) :
  match find f l with
  | Some x =>
      f x = true
      /\ exists before after,
           l = before ++ x :: after /\ Forall (fun y => f y = false) before
  | None => Forall (fun y => f y = false) l
  end.
Proof.
  induction l as [|y l IH]; simpl; [constructor|].
  destruct (f y) eqn:E.
  - split; [exact E|]. exists [], l. split; [reflexivity|constructor].
  - destruct (find f l) as [x|].
    + destruct IH as (Hx & before & after & -> & Hb).
      split; [exact Hx|]. exists (y :: before), after.
      split; [reflexivity|]. now constructor.
    + now constructor.
Qed.

(** X2.  [get_llm_by_id] returns the first catalogue entry with the
    requested identifier, and that entry is listed by [get_llms_by_type]
    under its own type; it returns [None] exactly when no entry has the
    identifier. *)
Theorem get_llm_by_id_first (env : Environment) (id : string) :
  match get_llm_by_id env id with
  | Some llm =>
      model_id llm = id
      /\ In llm (get_llms_by_type env (model_type llm))
      /\ exists before after,
           get_all_llms env = before ++ llm :: after
           /\ Forall (fun other => model_id other <> id) before
  | None => Forall (fun other => model_id other <> id) (get_all_llms env)
  end.
Proof.
  unfold get_llm_by_id, get_all_llms, get_llms_by_type.
  pose proof (find_first (fun llm => model_id llm =? id)%string (COGNIWARE_LLMS env)) as H.
  destruct (find _ (COGNIWARE_LLMS env)) as [llm|].
  - destruct H as (Hid & before & after & Heq & Hb).
    apply String.eqb_eq in Hid. split; [exact Hid|]. split.
    + apply filter_In. split; [|apply String.eqb_refl].
      rewrite Heq. apply in_or_app. right. now left.
    + exists before, after. split; [exact Heq|].
      eapply Forall_impl; [|exact Hb]. intros other Ho. now apply String.eqb_neq.
  - eapply Forall_impl; [|exact H]. intros other Ho. now apply String.eqb_neq.
Qed.

(** ** Model selection *)

Lemma py_take_prefix {A : Type} (n : Z) (l : list A) :
  (exists rest, l = py_take n l ++ rest)
  /\ ((0 <= n)%Z -> len (py_take n l) = Z.min n (len l))
  /\ ((n < 0)%Z -> len (py_take n l) = Z.max 0 (len l + n)).
Proof.
  unfold py_take, len. split; [|split].
  - destruct (0 <=? n)%Z;
      match goal with
      | |- context [firstn ?k l] => exists (skipn k l); symmetry; apply firstn_skipn
      end.
  - intros Hn. apply Z.leb_le in Hn as Hb. rewrite Hb, length_firstn. lia.
  - intros Hn. apply Z.leb_gt in Hn as Hb. rewrite Hb, length_firstn. lia.
Qed.

(** X3.  The models of a class handed to the strategies are a prefix of the
    catalogue listing of that class.  A non-negative count selects
    min(count, available) models; a negative count is a Python slice bound
    and selects all but the last |count| models rather than none. *)
Theorem selection_by_count (env : Environment) (a : CallArgs) :
  (exists rest, get_interface_llms env = selected_interface env a ++ rest)
  /\ (exists rest, get_knowledge_llms env = selected_knowledge env a ++ rest)
  /\ Forall (fun llm => model_type llm = "interface") (selected_interface env a)
  /\ Forall (fun llm => model_type llm = "knowledge") (selected_knowledge env a)
  /\ ((0 <= num_interface_llms a)%Z ->
      len (selected_interface env a)
      = Z.min (num_interface_llms a) (len (get_interface_llms env)))
  /\ ((0 <= num_knowledge_llms a)%Z ->
      len (selected_knowledge env a)
      = Z.min (num_knowledge_llms a) (len (get_knowledge_llms env)))
  /\ ((num_interface_llms a < 0)%Z ->
      len (selected_interface env a)
      = Z.max 0 (len (get_interface_llms env) + num_interface_llms a))
  /\ ((num_knowledge_llms a < 0)%Z ->
      len (selected_knowledge env a)
      = Z.max 0 (len (get_knowledge_llms env) + num_knowledge_llms a)).
Proof.
  unfold selected_interface, selected_knowledge.
  destruct (py_take_prefix (num_interface_llms a) (get_interface_llms env))
    as (Hpi & Hni & Hmi).
  destruct (py_take_prefix (num_knowledge_llms a) (get_knowledge_llms env))
    as (Hpk & Hnk & Hmk).
  split; [exact Hpi|]. split; [exact Hpk|].
  split; [|split].
  - apply Forall_forall. intros llm H. apply In_py_take in H.
    now apply get_llms_by_type_model_type in H.
  - apply Forall_forall. intros llm H. apply In_py_take in H.
    now apply get_llms_by_type_model_type in H.
  - split; [exact Hni|]. split; [exact Hnk|]. split; [exact Hmi|exact Hmk].
Qed.

Lemma selection_by_count_witness :
  len (selected_interface answering (default_arguments fibonacci_prompt)) = 2%Z
  /\ len (selected_interface answering
            (mkCallArgs fibonacci_prompt PARALLEL (-1) 1 0.7 2048 "code_generation" None))
     = 6%Z.
Proof.
  split.
  - destruct (selection_by_count answering (default_arguments fibonacci_prompt))
      as (_ & _ & _ & _ & H & _).
    rewrite H; [reflexivity|]. cbn. lia.
  - destruct (selection_by_count answering
                (mkCallArgs fibonacci_prompt PARALLEL (-1) 1 0.7 2048 "code_generation" None))
      as (_ & _ & _ & _ & _ & _ & H & _).
    rewrite H; [reflexivity|]. cbn. lia.
Defined.

(** ** The shape of every result *)

Lemma collected_produced (env : Environment) (req : LLMRequest.t) :
  produced env (collected env req).
Proof.
  unfold collected, future_result, produced.
  destruct (on_time env req); [left|right]; eauto.
Qed.

Lemma _execute_sequential_produced (env : Environment) (prompt : string)
  (interface_llms knowledge_llms : list LLM) (temperature : Q) (max_tokens : Z) :
  let r := _execute_sequential env prompt interface_llms knowledge_llms temperature max_tokens in
  Forall (produced env) (ParallelExecutionResult.interface_llm_results r)
  /\ Forall (produced env) (ParallelExecutionResult.knowledge_llm_results r).
Proof.
  unfold _execute_sequential.
  destruct interface_llms as [|i il], knowledge_llms as [|k kl]; cbv zeta;
    match goal with
    | |- context [_synthesize_parallel_results ?x ?y] =>
        destruct (_synthesize_parallel_results x y) as [[text c] s]
    end;
    cbn [ParallelExecutionResult.interface_llm_results
         ParallelExecutionResult.knowledge_llm_results];
    split; repeat first [apply Forall_nil | apply Forall_cons];
    try (left; eexists; reflexivity).
Qed.

Lemma consensus_results_produced (env : Environment) (a : CallArgs) :
  Forall (produced env) (consensus_results env a).
Proof.
  apply Forall_forall. intros x Hx. unfold consensus_results in Hx.
  apply in_map_iff in Hx. destruct Hx as (req & <- & _). left. now exists req.
Qed.

Lemma Forall_filter {A : Type} (P : A -> Prop) (f : A -> bool) (l : list A) :
  Forall P l -> Forall P (filter f l).
Proof.
  rewrite !Forall_forall. intros H x Hx. apply filter_In in Hx. now apply H.
Qed.

(** Every individual result of a call was produced by the invoker or by the
    error clause of the collection loop. *)
Lemma individual_results_produced (env : Environment) (self : ParallelLLMExecutor)
  (a : CallArgs) :
  Forall (produced env) (individual_results (fst (execute_parallel env self a))).
Proof.
  unfold individual_results. destruct (no_llms env a) eqn:Hguard.
  - unfold execute_parallel. rewrite Hguard. cbn. constructor.
  - destruct (arg_strategy a) eqn:Hs.
    + destruct (execute_parallel_mcp env self a Hguard Hs) as (_ & _ & _ & _ & Hi & Hk).
      rewrite Hi, Hk. apply Forall_app. split; apply Forall_forall; intros x Hx;
        apply in_map_iff in Hx; destruct Hx as (req & <- & _); apply collected_produced.
    + rewrite (execute_parallel_result _ _ _ Hguard). unfold timed_result.
      rewrite Hs. cbn [run_strategy]. unfold _execute_single_type.
      destruct (selected_interface env a); cbn;
        repeat first [apply Forall_nil | apply Forall_cons].
      left. eexists. reflexivity.
    + rewrite (execute_parallel_result _ _ _ Hguard). unfold timed_result.
      rewrite Hs. cbn [run_strategy]. unfold _execute_single_type.
      destruct (selected_knowledge env a); cbn;
        repeat first [apply Forall_nil | apply Forall_cons].
      left. eexists. reflexivity.
    + rewrite (execute_parallel_result _ _ _ Hguard). unfold timed_result.
      rewrite Hs. cbn [run_strategy].
      destruct (_execute_sequential_produced env (prompt a) (selected_interface env a)
                  (selected_knowledge env a) (temperature a) (max_tokens a)) as [Hi Hk].
      cbn [ParallelExecutionResult.set_total_processing_time_ms
           ParallelExecutionResult.interface_llm_results
           ParallelExecutionResult.knowledge_llm_results].
      apply Forall_app. split; assumption.
    + destruct (execute_parallel_consensus env self a Hguard Hs) as (_ & Hi & Hk & _).
      rewrite Hi, Hk. apply Forall_app.
      split; apply Forall_filter, consensus_results_produced.
Qed.

Lemma produced_well_formed (env : Environment) (x : LLMResponse.t) :
  produced env x -> well_formed x.
Proof.
  unfold well_formed. intros [[req ->]|(req & e & ->)].
  - unfold _execute_single_llm. destruct (run_model env req); cbn.
    + reflexivity.
    + repeat split. discriminate.
  - cbn. repeat split. discriminate.
Qed.

(** X4.  Every individual result returned by [execute_parallel], under any
    strategy, is well formed: a failed result has an empty text, confidence
    0 and its error field set (to a string that may be empty), and a
    successful result has no error. *)
Theorem individual_results_well_formed (env : Environment) (self : ParallelLLMExecutor)
  (a : CallArgs) :
  Forall well_formed (individual_results (fst (execute_parallel env self a))).
Proof.
  eapply Forall_impl; [|apply individual_results_produced].
  intros x. apply produced_well_formed.
Qed.

(** ** Counting the executed models *)

Lemma consensus_results_types (env : Environment) (a : CallArgs) (b : LLMResponse.t) :
  In b (consensus_results env a) ->
  LLMResponse.llm_type b = "interface" \/ LLMResponse.llm_type b = "knowledge".
Proof.
  intros Hb. unfold consensus_results in Hb.
  apply in_map_iff in Hb. destruct Hb as (req & <- & Hreq).
  apply filter_In in Hreq. destruct Hreq as [Hreq _].
  unfold consensus_requests in Hreq. apply in_map_iff in Hreq.
  destruct Hreq as (llm & <- & Hllm). apply In_py_take in Hllm.
  rewrite (proj1 (_execute_single_llm_type _ _)). cbn.
  now apply (selected_model_type env a).
Qed.

Lemma length_by_class (l : list LLMResponse.t) :
  (forall b, In b l ->
     LLMResponse.llm_type b = "interface" \/ LLMResponse.llm_type b = "knowledge") ->
  (len (filter (fun r => LLMResponse.llm_type r =? "interface")%string l)
   + len (filter (fun r => LLMResponse.llm_type r =? "knowledge")%string l))%Z
  = len l.
Proof.
  unfold len. induction l as [|x l IH]; intros H; [reflexivity|].
  assert (IH' := IH (fun b Hb => H b (or_intror Hb))).
  cbn [filter]. destruct (H x (or_introl eq_refl)) as [E|E]; rewrite E.
  - change ("interface" =? "interface")%string with true.
    change ("interface" =? "knowledge")%string with false.
    cbn [List.length]. rewrite Nat2Z.inj_succ in *. lia.
  - change ("knowledge" =? "interface")%string with false.
    change ("knowledge" =? "knowledge")%string with true.
    cbn [List.length]. rewrite Nat2Z.inj_succ in *. lia.
Qed.

Lemma llms_executed_sum (env : Environment) (self : ParallelLLMExecutor)
  (a : CallArgs) :
  let r := fst (execute_parallel env self a) in
  ParallelExecutionResult.llms_executed r
  = (len (ParallelExecutionResult.interface_llm_results r)
     + len (ParallelExecutionResult.knowledge_llm_results r))%Z.
Proof.
  intros r. subst r. destruct (no_llms env a) eqn:Hguard.
  - unfold execute_parallel. rewrite Hguard. reflexivity.
  - destruct (arg_strategy a) eqn:Hs.
    + rewrite (execute_parallel_result _ _ _ Hguard). unfold timed_result.
      rewrite Hs. cbn [run_strategy].
      destruct (_execute_parallel_mcp_result env (prompt a) (selected_interface env a)
                  (selected_knowledge env a) (temperature a) (max_tokens a))
        as (_ & Hn & Hi & Hk & _).
      cbn [ParallelExecutionResult.set_total_processing_time_ms
           ParallelExecutionResult.llms_executed
           ParallelExecutionResult.interface_llm_results
           ParallelExecutionResult.knowledge_llm_results].
      now rewrite Hn, Hi, Hk.
    + rewrite (execute_parallel_result _ _ _ Hguard). unfold timed_result.
      rewrite Hs. cbn [run_strategy]. unfold _execute_single_type.
      destruct (selected_interface env a); reflexivity.
    + rewrite (execute_parallel_result _ _ _ Hguard). unfold timed_result.
      rewrite Hs. cbn [run_strategy]. unfold _execute_single_type.
      destruct (selected_knowledge env a); reflexivity.
    + rewrite (execute_parallel_result _ _ _ Hguard). unfold timed_result.
      rewrite Hs. cbn [run_strategy].
      destruct (_execute_sequential_result env (prompt a) (selected_interface env a)
                  (selected_knowledge env a) (temperature a) (max_tokens a))
        as (_ & _ & _ & _ & Hn).
      cbn [ParallelExecutionResult.set_total_processing_time_ms
           ParallelExecutionResult.llms_executed
           ParallelExecutionResult.interface_llm_results
           ParallelExecutionResult.knowledge_llm_results].
      exact Hn.
    + destruct (execute_parallel_consensus env self a Hguard Hs) as (Hn & Hi & Hk & _).
      rewrite Hn, Hi, Hk. symmetry. apply length_by_class.
      apply consensus_results_types.
Qed.

(** X5.  Under every strategy, and also when the guard fires, the number of
    executed models reported by the result is the number of interface
    results plus the number of knowledge results it carries. *)
Theorem llms_executed_counts_results (env : Environment) (self : ParallelLLMExecutor)
  (a : CallArgs) :
  let r := fst (execute_parallel env self a) in
  ParallelExecutionResult.llms_executed r
  = (len (ParallelExecutionResult.interface_llm_results r)
     + len (ParallelExecutionResult.knowledge_llm_results r))%Z.
Proof. apply llms_executed_sum. Qed.

(** ** One result per model under the parallel strategy *)

Lemma collected_identity (env : Environment) (req : LLMRequest.t) :
  LLMResponse.llm_id (collected env req) = LLMRequest.llm_id req
  /\ LLMResponse.llm_name (collected env req) = LLMRequest.llm_name req
  /\ LLMResponse.llm_type (collected env req) = LLMRequest.llm_type req.
Proof.
  unfold collected, future_result. destruct (on_time env req); cbn; [|repeat split].
  unfold _execute_single_llm. destruct (run_model env req); repeat split.
Qed.

(** X6.  Under the parallel strategy every selected model yields exactly
    one result, also when its call fails or times out: the interface
    results carry the identifiers of the selected interface models in
    catalogue order and are all of type "interface", and likewise for the
    knowledge results; the number of executed models is the number of
    selected models. *)
Theorem parallel_one_result_per_model (env : Environment) (self : ParallelLLMExecutor)
  (a : CallArgs) :
  no_llms env a = false ->
  arg_strategy a = PARALLEL ->
  let r := fst (execute_parallel env self a) in
  map LLMResponse.llm_id (ParallelExecutionResult.interface_llm_results r)
  = map model_id (selected_interface env a)
  /\ map LLMResponse.llm_id (ParallelExecutionResult.knowledge_llm_results r)
     = map model_id (selected_knowledge env a)
  /\ Forall (fun x => LLMResponse.llm_type x = "interface")
       (ParallelExecutionResult.interface_llm_results r)
  /\ Forall (fun x => LLMResponse.llm_type x = "knowledge")
       (ParallelExecutionResult.knowledge_llm_results r)
  /\ ParallelExecutionResult.llms_executed r
     = (len (selected_interface env a) + len (selected_knowledge env a))%Z.
Proof.
  intros Hguard Hs r.
  destruct (execute_parallel_mcp env self a Hguard Hs) as (_ & _ & _ & _ & Hi & Hk).
  fold r in Hi, Hk. rewrite Hi, Hk. repeat split.
  - rewrite !map_map. apply map_ext. intros llm.
    now rewrite (proj1 (collected_identity _ _)).
  - rewrite !map_map. apply map_ext. intros llm.
    now rewrite (proj1 (collected_identity _ _)).
  - apply Forall_forall. intros x Hx. rewrite map_map in Hx.
    apply in_map_iff in Hx. destruct Hx as (llm & <- & _).
    now rewrite (proj2 (proj2 (collected_identity _ _))).
  - apply Forall_forall. intros x Hx. rewrite map_map in Hx.
    apply in_map_iff in Hx. destruct Hx as (llm & <- & _).
    now rewrite (proj2 (proj2 (collected_identity _ _))).
  - subst r. rewrite (execute_parallel_result _ _ _ Hguard). unfold timed_result.
    rewrite Hs. cbn [run_strategy].
    destruct (_execute_parallel_mcp_result env (prompt a) (selected_interface env a)
                (selected_knowledge env a) (temperature a) (max_tokens a))
      as (_ & Hn & _).
    cbn [ParallelExecutionResult.set_total_processing_time_ms
         ParallelExecutionResult.llms_executed].
    rewrite Hn. unfold len. now rewrite !length_map.
Qed.

Lemma parallel_one_result_per_model_witness :
  map LLMResponse.llm_id (ParallelExecutionResult.interface_llm_results stalled_result)
  = ["cogniware-chat-7b"; "cogniware-chat-13b"]
  /\ ParallelExecutionResult.llms_executed stalled_result = 3%Z.
Proof.
  destruct (parallel_one_result_per_model stalled parallel_executor
              (default_arguments fibonacci_prompt) eq_refl eq_refl)
    as (Hi & _ & _ & _ & Hn).
  split; [exact Hi|exact Hn].
Defined.

(** ** Confidence stays between 0 and 1 *)

Lemma produced_confidence (env : Environment) (x : LLMResponse.t) :
  confidences_in_unit_interval env -> produced env x ->
  in_unit_interval (LLMResponse.confidence_score x).
Proof.
  unfold in_unit_interval. intros Henv [[req ->]|(req & e & ->)].
  - unfold _execute_single_llm. destruct (run_model env req) as [text c n|e] eqn:E; cbn.
    + exact (Henv _ _ _ _ E).
    + split; lra.
  - cbn. split; lra.
Qed.

Lemma In_successes (rs : list LLMResponse.t) (b : LLMResponse.t) :
  py_max_key LLMResponse.confidence_score (successes rs) = Some b -> In b rs.
Proof.
  intros H. apply In_py_max_key in H. unfold successes in H.
  now apply filter_In in H.
Qed.

Lemma synthesize_confidence_bounds (interface_results knowledge_results : list LLMResponse.t) :
  Forall (fun x => in_unit_interval (LLMResponse.confidence_score x)) interface_results ->
  Forall (fun x => in_unit_interval (LLMResponse.confidence_score x)) knowledge_results ->
  in_unit_interval
    (combined_confidence (_synthesize_parallel_results interface_results knowledge_results)).
Proof.
  rewrite !Forall_forall. intros Hi Hk. unfold _synthesize_parallel_results.
  destruct (py_max_key _ (successes interface_results)) as [bi|] eqn:Ei;
    destruct (py_max_key _ (successes knowledge_results)) as [bk|] eqn:Ek;
    unfold combined_confidence, in_unit_interval; cbn;
    try (apply In_successes in Ei; apply Hi in Ei; destruct Ei as [Ei0 Ei1]);
    try (apply In_successes in Ek; apply Hk in Ek; destruct Ek as [Ek0 Ek1]);
    split; lra.
Qed.

(** X7.  When every answer of the models carries a confidence between 0
    and 1, the confidence of the result of [execute_parallel] is between 0
    and 1 as well, under every strategy and whatever calls fail. *)
Theorem confidence_in_unit_interval (env : Environment) (self : ParallelLLMExecutor)
  (a : CallArgs) :
  confidences_in_unit_interval env ->
  in_unit_interval
    (ParallelExecutionResult.confidence_score (fst (execute_parallel env self a))).
Proof.
  intros Henv.
  assert (Hall : Forall (fun x => in_unit_interval (LLMResponse.confidence_score x))
                   (individual_results (fst (execute_parallel env self a)))).
  { eapply Forall_impl; [|apply individual_results_produced].
    intros x. now apply (produced_confidence env). }
  unfold individual_results in Hall. apply Forall_app in Hall. destruct Hall as [Hi Hk].
  destruct (no_llms env a) eqn:Hguard.
  - unfold execute_parallel. rewrite Hguard. cbn. unfold in_unit_interval. split; lra.
  - destruct (arg_strategy a) eqn:Hs.
    + destruct (execute_parallel_mcp env self a Hguard Hs) as (_ & _ & Hc & _).
      rewrite Hc. now apply synthesize_confidence_bounds.
    + rewrite (execute_parallel_result _ _ _ Hguard). unfold timed_result.
      rewrite Hs. cbn [run_strategy]. unfold _execute_single_type.
      destruct (selected_interface env a); cbn.
      * unfold in_unit_interval. split; lra.
      * apply (produced_confidence env); [exact Henv|]. left. eexists. reflexivity.
    + rewrite (execute_parallel_result _ _ _ Hguard). unfold timed_result.
      rewrite Hs. cbn [run_strategy]. unfold _execute_single_type.
      destruct (selected_knowledge env a); cbn.
      * unfold in_unit_interval. split; lra.
      * apply (produced_confidence env); [exact Henv|]. left. eexists. reflexivity.
    + rewrite (execute_parallel_result _ _ _ Hguard) in *. unfold timed_result in *.
      rewrite Hs in *. cbn [run_strategy] in *.
      destruct (_execute_sequential_result env (prompt a) (selected_interface env a)
                  (selected_knowledge env a) (temperature a) (max_tokens a))
        as (_ & _ & Hc & _).
      cbn [ParallelExecutionResult.set_total_processing_time_ms
           ParallelExecutionResult.confidence_score
           ParallelExecutionResult.interface_llm_results
           ParallelExecutionResult.knowledge_llm_results] in *.
      rewrite Hc. now apply synthesize_confidence_bounds.
    + destruct (execute_parallel_consensus env self a Hguard Hs)
        as (_ & _ & _ & _ & _ & Hc).
      rewrite Hc.
      destruct (py_max_key LLMResponse.confidence_score (consensus_results env a))
        as [b|] eqn:Eb.
      * apply In_py_max_key in Eb. apply (produced_confidence env); [exact Henv|].
        pose proof (consensus_results_produced env a) as Hp.
        rewrite Forall_forall in Hp. now apply Hp.
      * unfold in_unit_interval. split; lra.
Qed.

Lemma answering_confidences : confidences_in_unit_interval answering.
Proof.
  intros req text c n. cbn.
  destruct (LLMRequest.llm_type req =? "interface")%string; intros H;
    injection H as _ <- _; split; lra.
Qed.

Lemma confidence_in_unit_interval_witness :
  in_unit_interval (ParallelExecutionResult.confidence_score example_result).
Proof.
  exact (confidence_in_unit_interval answering parallel_executor
           (default_arguments fibonacci_prompt) answering_confidences).
Defined.

(** ** The consensus vote *)

Lemma consensus_results_at_most_three (env : Environment) (a : CallArgs) :
  (len (consensus_results env a) <= 3)%Z.
Proof.
  unfold len, consensus_results, consensus_requests.
  set (llms := selected_interface env a ++ selected_knowledge env a).
  assert (Hthree : (List.length (py_take 3 llms) <= 3)%nat).
  { change (py_take 3 llms) with (firstn 3 llms). rewrite length_firstn. lia. }
  rewrite length_map.
  match goal with
  | |- (Z.of_nat (List.length (filter ?f ?l)) <= 3)%Z =>
      pose proof (filter_length_le f l) as Hf
  end.
  rewrite length_map in Hf. lia.
Qed.

Lemma execute_parallel_consensus_error (env : Environment) (self : ParallelLLMExecutor)
  (a : CallArgs) :
  no_llms env a = false ->
  arg_strategy a = CONSENSUS ->
  ParallelExecutionResult.error (fst (execute_parallel env self a)) = None.
Proof.
  intros Hguard Hs. rewrite (execute_parallel_result _ _ _ Hguard).
  unfold timed_result. rewrite Hs. reflexivity.
Qed.

(** X8.  The consensus strategy executes at most three models and succeeds
    exactly when at least one of their responses was collected.  The result
    then carries the text and the confidence of the collected response with
    the highest confidence, the earliest submitted one on a tie; when no
    response was collected the result fails with an empty text, confidence
    0 and no error message. *)
Theorem consensus_vote (env : Environment) (self : ParallelLLMExecutor) (a : CallArgs) :
  no_llms env a = false ->
  arg_strategy a = CONSENSUS ->
  let r := fst (execute_parallel env self a) in
  (ParallelExecutionResult.llms_executed r <= 3)%Z
  /\ (ParallelExecutionResult.success r = true
      <-> (0 < ParallelExecutionResult.llms_executed r)%Z)
  /\ (ParallelExecutionResult.success r = true ->
      exists earlier winner later,
        consensus_results env a = earlier ++ winner :: later
        /\ Forall (fun x => LLMResponse.confidence_score x
                            < LLMResponse.confidence_score winner) earlier
        /\ Forall (fun x => LLMResponse.confidence_score x
                            <= LLMResponse.confidence_score winner) later
        /\ ParallelExecutionResult.synthesized_result r = LLMResponse.response_text winner
        /\ ParallelExecutionResult.confidence_score r = LLMResponse.confidence_score winner)
  /\ (ParallelExecutionResult.success r = false ->
      ParallelExecutionResult.synthesized_result r = ""
      /\ ParallelExecutionResult.confidence_score r = 0.0
      /\ ParallelExecutionResult.error r = None).
Proof.
  intros Hguard Hs r.
  destruct (execute_parallel_consensus env self a Hguard Hs)
    as (Hn & _ & _ & Hok & Htext & Hconf).
  pose proof (execute_parallel_consensus_error env self a Hguard Hs) as Herr.
  fold r in Hn, Hok, Htext, Hconf, Herr. rewrite Hn, Hok, Htext, Hconf, Herr.
  split; [apply consensus_results_at_most_three|].
  destruct (py_max_key LLMResponse.confidence_score (consensus_results env a))
    as [b|] eqn:Eb.
  - pose proof (py_max_key_split _ _ _ Eb) as (earlier & later & Heq & He & Hl).
    split; [|split].
    + split; [intros _|reflexivity]. rewrite Heq. unfold len.
      rewrite length_app. cbn [List.length]. lia.
    + intros _. exists earlier, b, later. repeat split; assumption.
    + discriminate.
  - assert (Hnil : consensus_results env a = []).
    { destruct (consensus_results env a); [reflexivity|discriminate Eb]. }
    rewrite Hnil. split; [|split].
    + split; [discriminate|]. cbn. lia.
    + discriminate.
    + intros _. repeat split.
Qed.

Lemma consensus_vote_witness :
  map LLMResponse.confidence_score (consensus_results voting
        (with_strategy CONSENSUS (default_arguments fibonacci_prompt)))
  = [0.80; 0.92; 0.92]
  /\ ParallelExecutionResult.synthesized_result voting_result
     = "answer of Cogniware Chat 13B"
  /\ exists earlier winner later,
       consensus_results voting
         (with_strategy CONSENSUS (default_arguments fibonacci_prompt))
       = earlier ++ winner :: later
       /\ ParallelExecutionResult.synthesized_result voting_result
          = LLMResponse.response_text winner.
Proof.
  split; [reflexivity|]. split; [reflexivity|].
  destruct (consensus_vote voting parallel_executor
              (with_strategy CONSENSUS (default_arguments fibonacci_prompt))
              eq_refl eq_refl) as (_ & _ & Hwin & _).
  destruct (Hwin eq_refl) as (earlier & winner & later & Heq & _ & _ & Ht & _).
  exists earlier, winner, later. split; assumption.
Defined.

(** ** Bounds on the parallel speedup *)

Lemma sum_of_times_nonneg (times : list Q) :
  Forall (fun t => 0 <= t) times -> 0 <= sum_of_times times.
Proof.
  induction 1 as [|t ts Ht _ IH].
  - apply Qle_refl.
  - change (sum_of_times (t :: ts)) with (t + sum_of_times ts). lra.
Qed.

Lemma sum_of_times_member (times : list Q) (t : Q) :
  Forall (fun t => 0 <= t) times -> In t times -> t <= sum_of_times times.
Proof.
  induction 1 as [|u us Hu Hus IH]; intros Hin; [contradiction|].
  pose proof (sum_of_times_nonneg us Hus) as Hsum.
  change (sum_of_times (u :: us)) with (u + sum_of_times us).
  destruct Hin as [->|Hin]; [lra|]. specialize (IH Hin). lra.
Qed.

Lemma sum_of_times_bounded (times : list Q) (m : Q) :
  Forall (fun t => t <= m) times ->
  sum_of_times times <= inject_Z (len times) * m.
Proof.
  induction 1 as [|t ts Ht _ IH].
  - change (sum_of_times []) with 0. change (inject_Z (len [])) with 0. lra.
  - rewrite len_cons, inject_Z_plus.
    change (sum_of_times (t :: ts)) with (t + sum_of_times ts).
    change (inject_Z 1) with 1. lra.
Qed.

Lemma synthesis_speedup_bounds (interface_results knowledge_results : list LLMResponse.t) :
  let times := processing_times (interface_results ++ knowledge_results) in
  times <> [] ->
  Forall (fun t => 0 <= t) times ->
  1 <= synthesis_speedup interface_results knowledge_results
  /\ synthesis_speedup interface_results knowledge_results <= inject_Z (len times).
Proof.
  intros times Hne Hpos. unfold synthesis_speedup.
  fold times. remember times as ts eqn:Ets. unfold times in Ets. clear times.
  set (padded := processing_times interface_results ++ [0]
                 ++ processing_times knowledge_results ++ [0]).
  assert (Hpadded : padded <> []).
  { unfold padded. destruct (processing_times interface_results); discriminate. }
  destruct (py_max_is_maximum padded Hpadded) as [Hin Hall].
  remember (py_max padded) as m eqn:Hm. clear Hm.
  assert (Hts : ts = processing_times interface_results
                     ++ processing_times knowledge_results).
  { rewrite Ets. unfold processing_times. apply map_app. }
  assert (Hsub : forall t, In t ts -> In t padded).
  { intros t Ht. rewrite Hts in Ht. unfold padded.
    apply in_app_or in Ht. apply in_or_app. destruct Ht as [Ht|Ht]; [now left|].
    right. simpl. right. apply in_or_app. now left. }
  assert (Hone : 1 <= inject_Z (len ts)).
  { destruct ts as [|t ts']; [congruence|]. rewrite len_cons, inject_Z_plus.
    assert (0 <= inject_Z (len ts')).
    { change 0 with (inject_Z 0). rewrite <- Zle_Qle. unfold len. lia. }
    change (inject_Z 1) with 1. lra. }
  destruct (Qlt_le_dec 0 m) as [Hm|Hm].
  - assert (Hmem : In m ts).
    { unfold padded in Hin. rewrite Hts.
      apply in_app_or in Hin. apply in_or_app. destruct Hin as [Hin|Hin]; [now left|].
      simpl in Hin. destruct Hin as [Hz|Hin]; [subst m; exfalso; lra|].
      apply in_app_or in Hin. destruct Hin as [Hin|Hin]; [now right|].
      destruct Hin as [Hz|[]]. subst m; exfalso; lra. }
    assert (Hbound : Forall (fun t => t <= m) ts).
    { rewrite Forall_forall in *. intros t Ht. apply Hall, Hsub, Ht. }
    rewrite py_sum_sum_of_times. split.
    + apply Qle_shift_div_l; [exact Hm|].
      pose proof (sum_of_times_member ts m Hpos Hmem). lra.
    + apply Qle_shift_div_r; [exact Hm|]. now apply sum_of_times_bounded.
  - split; lra.
Qed.

Lemma collected_time_nonneg (env : Environment) (req : LLMRequest.t) :
  (forall req, 0 <= elapsed_time env req) ->
  0 <= LLMResponse.processing_time_ms (collected env req).
Proof.
  intros H. unfold collected, future_result. destruct (on_time env req); cbn; [|lra].
  unfold _execute_single_llm. destruct (run_model env req); cbn; apply H.
Qed.

(** X9.  Under the parallel strategy, when no measured elapsed time is
    negative, the reported speedup is never below 1, whichever calls fail
    or time out. *)
Theorem parallel_speedup_at_least_one (env : Environment) (self : ParallelLLMExecutor)
  (a : CallArgs) :
  no_llms env a = false ->
  arg_strategy a = PARALLEL ->
  (forall req, 0 <= elapsed_time env req) ->
  1 <= ParallelExecutionResult.parallel_speedup (fst (execute_parallel env self a)).
Proof.
  intros Hguard Hs Htime. set (r := fst (execute_parallel env self a)).
  cut (1 <= ParallelExecutionResult.parallel_speedup r
       /\ ParallelExecutionResult.parallel_speedup r
          <= inject_Z (ParallelExecutionResult.llms_executed r)); [tauto|].
  destruct (execute_parallel_mcp env self a Hguard Hs) as (_ & _ & _ & Hsp & Hi & Hk).
  fold r in Hsp, Hi, Hk. rewrite Hsp, speedup_factor_synthesis.
  assert (Hn : ParallelExecutionResult.llms_executed r
               = len (processing_times
                        (ParallelExecutionResult.interface_llm_results r
                         ++ ParallelExecutionResult.knowledge_llm_results r))).
  { subst r. rewrite (execute_parallel_result _ _ _ Hguard) in *. unfold timed_result in *.
    rewrite Hs in *. cbn [run_strategy] in *.
    destruct (_execute_parallel_mcp_result env (prompt a) (selected_interface env a)
                (selected_knowledge env a) (temperature a) (max_tokens a))
      as (_ & Hn & Hi' & Hk' & _).
    cbn [ParallelExecutionResult.set_total_processing_time_ms
         ParallelExecutionResult.llms_executed
         ParallelExecutionResult.interface_llm_results
         ParallelExecutionResult.knowledge_llm_results] in *.
    rewrite Hn, Hi', Hk'. unfold len, processing_times.
    repeat (rewrite length_map || rewrite length_app). lia. }
  rewrite Hn. apply synthesis_speedup_bounds.
  - unfold processing_times. rewrite Hi, Hk.
    apply no_llms_false in Hguard. intros Hnil.
    apply map_eq_nil, app_eq_nil in Hnil. destruct Hnil as [Hn1 Hn2].
    apply map_eq_nil, map_eq_nil in Hn1. apply map_eq_nil, map_eq_nil in Hn2.
    destruct Hguard; contradiction.
  - unfold processing_times. rewrite Hi, Hk. apply Forall_forall. intros t Ht.
    apply in_map_iff in Ht. destruct Ht as (x & <- & Hx).
    apply in_app_or in Hx.
    destruct Hx as [Hx|Hx]; apply in_map_iff in Hx; destruct Hx as (req & <- & _);
      now apply collected_time_nonneg.
Qed.

Lemma parallel_speedup_at_least_one_witness :
  1 <= ParallelExecutionResult.parallel_speedup example_result.
Proof.
  apply (parallel_speedup_at_least_one answering parallel_executor
           (default_arguments fibonacci_prompt) eq_refl eq_refl).
  intros req. cbn. destruct (LLMRequest.llm_type req =? "interface")%string; lra.
Defined.

(** ** Aggregates of the ledger *)


(** X10.  In binary64 the running average of [_update_statistics] is the
    mean of the recorded speedups up to rounding only: after eleven
    executions that each report the speedup 2.6, average_speedup is
    2.600000000000001 and not 2.6. *)
Theorem binary64_average_speedup :
  Binary64.example_speedup = 2.6%float
  /\ Binary64.total_executions Binary64.eleven_updates = 11%Z
  /\ Binary64.average_speedup Binary64.eleven_updates = 2.600000000000001%float
  /\ Binary64.average_speedup Binary64.eleven_updates <> 2.6%float.
Proof.
  split; [vm_compute; reflexivity|]. split; [vm_compute; reflexivity|].
  split; [vm_compute; reflexivity|].
  intros H. apply (f_equal Prim2SF) in H. vm_compute in H. discriminate H.
Qed.


(** ** The history entry of a call *)

Lemma substring_prefix (n : nat) (s : string) :
  (exists rest, s = (substring 0 n s ++ rest)%string)
  /\ String.length (substring 0 n s) = Nat.min n (String.length s).
Proof.
  revert n. induction s as [|c s IH]; intros n.
  - destruct n; cbn; split; try reflexivity; now exists "".
  - destruct n as [|n]; cbn.
    + split; [|reflexivity]. now exists (String c s).
    + destruct (IH n) as [[rest Hrest] Hlen]. split.
      * exists rest. now rewrite <- Hrest.
      * now rewrite Hlen.
Qed.

(** X12.  A call with a prompt of ASCII characters that selects at least
    one model appends exactly one entry to the history.  Its prompt is the
    first 100 characters of the request prompt (the whole prompt when
    shorter), and it records the requested strategy, the number of executed
    models, the measured total time and the reported speedup of the
    returned result. *)
Theorem history_entry_of_call (env : Environment) (self : ParallelLLMExecutor)
  (a : CallArgs) :
  ascii_only (prompt a) = true ->
  no_llms env a = false ->
  let r := fst (execute_parallel env self a) in
  exists entry,
    execution_history (snd (execute_parallel env self a))
    = execution_history self ++ [entry]
    /\ (exists rest, prompt a = (entry_prompt entry ++ rest)%string)
    /\ String.length (entry_prompt entry) = Nat.min 100 (String.length (prompt a))
    /\ strategy entry = value (arg_strategy a)
    /\ llms_used entry = ParallelExecutionResult.llms_executed r
    /\ time_ms entry = ParallelExecutionResult.total_processing_time_ms r
    /\ time_ms entry = total_time env
    /\ speedup entry = ParallelExecutionResult.parallel_speedup r
    /\ timestamp entry = now env.
Proof.
  intros _ Hguard r. subst r. rewrite (execute_parallel_result _ _ _ Hguard).
  pose proof (execute_parallel_ledger env self a) as Hl. cbv zeta in Hl.
  rewrite Hguard in Hl. destruct Hl as [_ Hh].
  exists (summary (env, a)). split; [exact Hh|].
  unfold summary, history_entry. cbn [fst snd entry_prompt strategy llms_used time_ms
    speedup timestamp].
  destruct (substring_prefix 100 (prompt a)) as [Hrest Hlen].
  repeat split; assumption.
Qed.

Lemma history_entry_of_call_witness :
  ascii_only fibonacci_prompt = true
  /\ exists entry,
    execution_history (snd (execute_parallel answering parallel_executor
                              (default_arguments fibonacci_prompt))) = [entry]
    /\ entry_prompt entry = fibonacci_prompt
    /\ llms_used entry = 3%Z.
Proof.
  split; [reflexivity|].
  destruct (history_entry_of_call answering parallel_executor
              (default_arguments fibonacci_prompt) eq_refl eq_refl)
    as (entry & Hh & _ & _ & _ & Hn & _).
  exists entry. split; [exact Hh|].
  vm_compute in Hh. injection Hh as <-. split; reflexivity.
Defined.

(** ** The execution summary *)

Section Summary.
Variables format_2f format_1f : Q -> string.

Lemma synthesis_method_of_strategy (env : Environment) (a : CallArgs) :
  ParallelExecutionResult.metadata (timed_result env a)
  = match arg_strategy a with
    | PARALLEL =>
        Some [("interface_llms_used",
               Scalar (PyInt (len (ParallelExecutionResult.interface_llm_results
                                     (timed_result env a)))));
              ("knowledge_llms_used",
               Scalar (PyInt (len (ParallelExecutionResult.knowledge_llm_results
                                     (timed_result env a)))));
              ("synthesis_method", Scalar (PyStr "weighted_combination"));
              ("patent_claim", Scalar (PyStr "Multi-Context Processing (MCP)"))]
    | INTERFACE_ONLY | KNOWLEDGE_ONLY => None
    | SEQUENTIAL => Some [("execution_order", Scalar (PyStr "interface_first"))]
    | CONSENSUS => Some [("voting_method", Scalar (PyStr "highest_confidence"))]
    end.
Proof.
  unfold timed_result. destruct (arg_strategy a); cbn [run_strategy].
  - unfold _execute_parallel_mcp. destruct (dispatch _ _) as [irs krs].
    destruct (_synthesize_parallel_results irs krs) as [[text c] s]. reflexivity.
  - unfold _execute_single_type. destruct (selected_interface env a); reflexivity.
  - unfold _execute_single_type. destruct (selected_knowledge env a); reflexivity.
  - unfold _execute_sequential.
    destruct (selected_interface env a), (selected_knowledge env a); cbv zeta;
      match goal with
      | |- context [_synthesize_parallel_results ?x ?y] =>
          destruct (_synthesize_parallel_results x y) as [[text c] s]
      end; reflexivity.
  - reflexivity.
Qed.

(** X13.  The summary returned by [execute_with_parallel_llms] is coherent
    with the execution: its total of models used is the sum of its
    interface and knowledge counts, its text and success flag are those of
    the result, and its time saved is elapsed time x (speedup - 1).  The
    synthesis method reads "weighted_combination" exactly when the parallel
    strategy ran (any strategy string other than the four other names, with
    at least one model selected) and "N/A" otherwise, also for the
    sequential strategy. *)
Theorem summary_of_execution (env : Environment) (self : ParallelLLMExecutor)
  (prompt strategy : string) (num_interface num_knowledge : Z)
  (module : string) (context : option Dict) :
  let a := convenience_arguments prompt strategy num_interface num_knowledge module context in
  let r := fst (execute_parallel env self a) in
  let s := fst (execute_with_parallel_llms format_2f format_1f env self prompt strategy
                  num_interface num_knowledge module context) in
  ExecutionSummary.total (ExecutionSummary.llms_used s)
  = (ExecutionSummary.interface (ExecutionSummary.llms_used s)
     + ExecutionSummary.knowledge (ExecutionSummary.llms_used s))%Z
  /\ ExecutionSummary.result s = ParallelExecutionResult.synthesized_result r
  /\ ExecutionSummary.success s = ParallelExecutionResult.success r
  /\ ExecutionSummary.time_saved_ms (ExecutionSummary.performance s)
     == ExecutionSummary.processing_time_ms (ExecutionSummary.performance s)
        * (ParallelExecutionResult.parallel_speedup r - 1)
  /\ ExecutionSummary.synthesis_method (ExecutionSummary.quality s)
     = if negb (no_llms env a)
          && match strategy_enum strategy with PARALLEL => true | _ => false end
       then Scalar (PyStr "weighted_combination")
       else Scalar (PyStr "N/A").
Proof.
  intros a r s. subst s. unfold execute_with_parallel_llms. cbn [fst].
  fold a. fold r. unfold get_execution_summary.
  cbn [ExecutionSummary.total ExecutionSummary.interface ExecutionSummary.knowledge
       ExecutionSummary.llms_used ExecutionSummary.result ExecutionSummary.success
       ExecutionSummary.time_saved_ms ExecutionSummary.processing_time_ms
       ExecutionSummary.performance ExecutionSummary.synthesis_method
       ExecutionSummary.quality].
  split; [apply llms_executed_sum|]. split; [reflexivity|]. split; [reflexivity|].
  split; [reflexivity|].
  subst r. destruct (no_llms env a) eqn:Hguard.
  - unfold execute_parallel. rewrite Hguard. reflexivity.
  - rewrite (execute_parallel_result _ _ _ Hguard), synthesis_method_of_strategy.
    replace (arg_strategy a) with (strategy_enum strategy) by reflexivity.
    destruct (strategy_enum strategy); reflexivity.
Qed.

End Summary.

(** ** The single-type strategies *)

Lemma single_type_result (env : Environment) (self : ParallelLLMExecutor) (a : CallArgs)
  (llm : LLM) (rest : list LLM) :
  (arg_strategy a = INTERFACE_ONLY /\ selected_interface env a = llm :: rest
   -> fst (execute_parallel env self a)
      = ParallelExecutionResult.set_total_processing_time_ms
          (_execute_single_type env (prompt a) [llm] (temperature a) (max_tokens a)
             "interface")
          (total_time env))
  /\ (arg_strategy a = KNOWLEDGE_ONLY /\ selected_knowledge env a = llm :: rest
      -> fst (execute_parallel env self a)
         = ParallelExecutionResult.set_total_processing_time_ms
             (_execute_single_type env (prompt a) [llm] (temperature a) (max_tokens a)
                "knowledge")
             (total_time env)).
Proof.
  split; intros [Hs Hsel].
  - assert (Hguard : no_llms env a = false)
      by (apply no_llms_false; left; rewrite Hsel; discriminate).
    rewrite (execute_parallel_result _ _ _ Hguard). unfold timed_result.
    rewrite Hs, Hsel. reflexivity.
  - assert (Hguard : no_llms env a = false)
      by (apply no_llms_false; right; rewrite Hsel; discriminate).
    rewrite (execute_parallel_result _ _ _ Hguard). unfold timed_result.
    rewrite Hs, Hsel. reflexivity.
Qed.

(** X14.  The interface_only and knowledge_only strategies run exactly one
    model, the first selected model of their class, on the raw prompt: the
    result does not depend on the executor, on the models of the other class
    or on any further selected model, so two calls that agree on the prompt,
    the sampling parameters, the module, the context and that first model
    return the same result. *)
Theorem single_type_first_model_only (env : Environment)
  (self self' : ParallelLLMExecutor) (a a' : CallArgs) (llm : LLM) :
  prompt a = prompt a' ->
  temperature a = temperature a' ->
  max_tokens a = max_tokens a' ->
  module a = module a' ->
  context a = context a' ->
  (arg_strategy a = INTERFACE_ONLY /\ arg_strategy a' = INTERFACE_ONLY
   /\ hd_error (selected_interface env a) = Some llm
   /\ hd_error (selected_interface env a') = Some llm)
  \/ (arg_strategy a = KNOWLEDGE_ONLY /\ arg_strategy a' = KNOWLEDGE_ONLY
      /\ hd_error (selected_knowledge env a) = Some llm
      /\ hd_error (selected_knowledge env a') = Some llm) ->
  fst (execute_parallel env self a) = fst (execute_parallel env self' a')
  /\ ParallelExecutionResult.llms_executed (fst (execute_parallel env self a)) = 1%Z.
Proof.
  intros Hp Ht Hm _ _ [(Hs & Hs' & Hh & Hh')|(Hs & Hs' & Hh & Hh')].
  - destruct (selected_interface env a) as [|x rest] eqn:E; [discriminate Hh|].
    destruct (selected_interface env a') as [|x' rest'] eqn:E'; [discriminate Hh'|].
    cbn in Hh, Hh'. injection Hh as ->. injection Hh' as ->.
    rewrite (proj1 (single_type_result env self a llm rest) (conj Hs E)).
    rewrite (proj1 (single_type_result env self' a' llm rest') (conj Hs' E')).
    rewrite Hp, Ht, Hm. split; reflexivity.
  - destruct (selected_knowledge env a) as [|x rest] eqn:E; [discriminate Hh|].
    destruct (selected_knowledge env a') as [|x' rest'] eqn:E'; [discriminate Hh'|].
    cbn in Hh, Hh'. injection Hh as ->. injection Hh' as ->.
    rewrite (proj2 (single_type_result env self a llm rest) (conj Hs E)).
    rewrite (proj2 (single_type_result env self' a' llm rest') (conj Hs' E')).
    rewrite Hp, Ht, Hm. split; reflexivity.
Qed.

Lemma single_type_first_model_only_witness :
  fst (execute_parallel answering parallel_executor
         (with_strategy INTERFACE_ONLY (default_arguments fibonacci_prompt)))
  = fst (execute_parallel answering (run_calls parallel_executor eleven_calls)
           (with_counts 5 0 (with_strategy INTERFACE_ONLY (default_arguments fibonacci_prompt)))).
Proof.
  apply (single_type_first_model_only answering parallel_executor
           (run_calls parallel_executor eleven_calls)
           (with_strategy INTERFACE_ONLY (default_arguments fibonacci_prompt))
           (with_counts 5 0 (with_strategy INTERFACE_ONLY (default_arguments fibonacci_prompt)))
           (mkLLM "cogniware-chat-7b" "Cogniware Chat 7B" "interface"));
    try reflexivity.
  left. repeat split.
Defined.

(** ** When the guard fires *)

Lemma py_take_nil {A : Type} (n : Z) (l : list A) :
  py_take n l = [] <-> (n = 0 \/ l = [] \/ n <= - len l)%Z.
Proof.
  destruct (py_take_prefix n l) as (_ & Hpos & Hneg).
  assert (Hlen : py_take n l = [] <-> len (py_take n l) = 0%Z).
  { unfold len. destruct (py_take n l); cbn; split; intros H;
      first [reflexivity | discriminate | lia]. }
  assert (Hl : l = [] <-> len l = 0%Z).
  { unfold len. destruct l; cbn; split; intros H;
      first [reflexivity | discriminate | lia]. }
  assert (Hnn : (0 <= len l)%Z) by (unfold len; lia).
  rewrite Hlen, Hl. destruct (Z_lt_le_dec n 0) as [Hn|Hn].
  - rewrite (Hneg Hn). lia.
  - rewrite (Hpos Hn). lia.
Qed.

(** X15.  The guard "No LLMs available" fires exactly when, for each of
    the two classes, the requested count is 0, the catalogue lists no model
    of the class, or the count is negative and removes every listed model. *)
Theorem guard_fires_iff (env : Environment) (a : CallArgs) :
  no_llms env a = true
  <-> ((num_interface_llms a = 0 \/ get_interface_llms env = []
        \/ num_interface_llms a <= - len (get_interface_llms env))
       /\ (num_knowledge_llms a = 0 \/ get_knowledge_llms env = []
           \/ num_knowledge_llms a <= - len (get_knowledge_llms env)))%Z.
Proof.
  rewrite no_llms_true. unfold selected_interface, selected_knowledge.
  now rewrite !py_take_nil.
Qed.

(** ** A failed interface call under the sequential strategy *)

Lemma _execute_sequential_failed_interface (env : Environment) (prompt : string)
  (i : LLM) (il knowledge_llms : list LLM) (temperature : Q) (max_tokens : Z) :
  let r := _execute_sequential env prompt (i :: il) knowledge_llms temperature max_tokens in
  let r' := _execute_sequential env prompt [] knowledge_llms temperature max_tokens in
  Forall (fun x => LLMResponse.success x = false)
    (ParallelExecutionResult.interface_llm_results r) ->
  ParallelExecutionResult.knowledge_llm_results r
  = ParallelExecutionResult.knowledge_llm_results r'
  /\ ParallelExecutionResult.synthesized_result r
     = ParallelExecutionResult.synthesized_result r'
  /\ ParallelExecutionResult.confidence_score r
     = ParallelExecutionResult.confidence_score r'.
Proof.
  intros r r'.
  destruct (_execute_sequential_result env prompt (i :: il) knowledge_llms
              temperature max_tokens) as (_ & Ht & Hc & _).
  destruct (_execute_sequential_result env prompt [] knowledge_llms
              temperature max_tokens) as (_ & Ht' & Hc' & _).
  fold r in Ht, Hc. fold r' in Ht', Hc'. rewrite Ht, Hc, Ht', Hc'.
  assert (Hi' : ParallelExecutionResult.interface_llm_results r' = []).
  { subst r'. unfold _execute_sequential. destruct knowledge_llms; cbv zeta;
      match goal with
      | |- context [_synthesize_parallel_results ?x ?y] =>
          destruct (_synthesize_parallel_results x y) as [[text c] s]
      end; reflexivity. }
  intros Hfail.
  assert (Hk : ParallelExecutionResult.knowledge_llm_results r
               = ParallelExecutionResult.knowledge_llm_results r').
  { subst r r'. unfold _execute_sequential in *. destruct knowledge_llms; cbv zeta in *;
      repeat match goal with
        | H : context [_synthesize_parallel_results ?x ?y] |- _ =>
            destruct (_synthesize_parallel_results x y) as [[? ?] ?]
        | |- context [_synthesize_parallel_results ?x ?y] =>
            destruct (_synthesize_parallel_results x y) as [[? ?] ?]
        end;
      cbn [ParallelExecutionResult.interface_llm_results
           ParallelExecutionResult.knowledge_llm_results] in *; [reflexivity|].
    apply Forall_inv in Hfail.
    destruct (_execute_single_llm_failed _ _ Hfail) as (Htext & _).
    now rewrite Htext. }
  split; [exact Hk|]. rewrite Hk, Hi'.
  unfold _synthesize_parallel_results.
  rewrite (successes_all_failed _ Hfail).
  destruct (py_max_key LLMResponse.confidence_score
              (successes (ParallelExecutionResult.knowledge_llm_results r')));
    split; reflexivity.
Qed.

(** X16.  Under the sequential strategy with a knowledge model selected, an
    interface call that fails leaves the same knowledge result, the same
    synthesized text and the same confidence as a call that requests no
    interface model at all: the knowledge prompt carries an empty interface
    context and the failed result takes no part in the synthesis. *)
Theorem sequential_failed_interface (env : Environment)
  (self self' : ParallelLLMExecutor) (a : CallArgs) :
  arg_strategy a = SEQUENTIAL ->
  selected_interface env a <> [] ->
  selected_knowledge env a <> [] ->
  let r := fst (execute_parallel env self a) in
  let r' := fst (execute_parallel env self' (with_counts 0 (num_knowledge_llms a) a)) in
  Forall (fun x => LLMResponse.success x = false)
    (ParallelExecutionResult.interface_llm_results r) ->
  ParallelExecutionResult.knowledge_llm_results r
  = ParallelExecutionResult.knowledge_llm_results r'
  /\ ParallelExecutionResult.synthesized_result r
     = ParallelExecutionResult.synthesized_result r'
  /\ ParallelExecutionResult.confidence_score r
     = ParallelExecutionResult.confidence_score r'.
Proof.
  intros Hs Hi Hk r r'. subst r r'.
  set (a' := with_counts 0 (num_knowledge_llms a) a).
  assert (Hguard : no_llms env a = false) by (apply no_llms_false; now left).
  assert (Hk' : selected_knowledge env a' = selected_knowledge env a) by reflexivity.
  assert (Hi' : selected_interface env a' = []) by reflexivity.
  assert (Hguard' : no_llms env a' = false)
    by (apply no_llms_false; right; now rewrite Hk').
  rewrite (execute_parallel_result _ _ _ Hguard), (execute_parallel_result _ _ _ Hguard').
  unfold timed_result. rewrite Hk', Hi'.
  replace (arg_strategy a') with (arg_strategy a) by reflexivity.
  replace (prompt a') with (prompt a) by reflexivity.
  replace (temperature a') with (temperature a) by reflexivity.
  replace (max_tokens a') with (max_tokens a) by reflexivity.
  rewrite Hs. cbn [run_strategy].
  destruct (selected_interface env a) as [|i il]; [congruence|].
  cbn [ParallelExecutionResult.set_total_processing_time_ms
       ParallelExecutionResult.interface_llm_results
       ParallelExecutionResult.knowledge_llm_results
       ParallelExecutionResult.synthesized_result
       ParallelExecutionResult.confidence_score].
  apply _execute_sequential_failed_interface.
Qed.

Lemma sequential_failed_interface_witness :
  ParallelExecutionResult.synthesized_result
    (fst (execute_parallel interface_down parallel_executor
            (with_strategy SEQUENTIAL (default_arguments fibonacci_prompt))))
  = "Knowledge context.".
Proof.
  assert (Hi : selected_interface interface_down
                 (with_strategy SEQUENTIAL (default_arguments fibonacci_prompt)) <> [])
    by (vm_compute; discriminate).
  assert (Hk : selected_knowledge interface_down
                 (with_strategy SEQUENTIAL (default_arguments fibonacci_prompt)) <> [])
    by (vm_compute; discriminate).
  assert (Hfail : Forall (fun x => LLMResponse.success x = false)
                    (ParallelExecutionResult.interface_llm_results
                       (fst (execute_parallel interface_down parallel_executor
                               (with_strategy SEQUENTIAL
                                  (default_arguments fibonacci_prompt))))))
    by (vm_compute; repeat constructor).
  destruct (sequential_failed_interface interface_down parallel_executor parallel_executor
              (with_strategy SEQUENTIAL (default_arguments fibonacci_prompt))
              eq_refl Hi Hk Hfail) as (_ & Ht & _).
  rewrite Ht. reflexivity.
Defined.

(** ** Consensus with many interface models *)

Lemma firstn_app_left {A : Type} (n : nat) (l1 l2 : list A) :
  (n <= List.length l1)%nat -> firstn n (l1 ++ l2) = firstn n l1.
Proof.
  intros H. rewrite firstn_app. replace (n - List.length l1)%nat with 0%nat by lia.
  cbn. apply app_nil_r.
Qed.

(** X17.  The consensus strategy only looks at the first three models of
    the interface list followed by the knowledge list: when three or more
    interface models are selected, no knowledge model is executed and the
    result carries no knowledge result. *)
Theorem consensus_ignores_knowledge (env : Environment) (self : ParallelLLMExecutor)
  (a : CallArgs) :
  arg_strategy a = CONSENSUS ->
  (3 <= len (selected_interface env a))%Z ->
  ParallelExecutionResult.knowledge_llm_results (fst (execute_parallel env self a)) = [].
Proof.
  intros Hs Hthree.
  assert (Hguard : no_llms env a = false).
  { apply no_llms_false. left. intros Hnil. rewrite Hnil in Hthree. cbn in Hthree. lia. }
  destruct (execute_parallel_consensus env self a Hguard Hs) as (_ & _ & Hk & _).
  rewrite Hk. apply filter_none. intros x Hx.
  unfold consensus_results in Hx. apply in_map_iff in Hx.
  destruct Hx as (req & <- & Hreq). apply filter_In in Hreq. destruct Hreq as [Hreq _].
  unfold consensus_requests in Hreq. apply in_map_iff in Hreq.
  destruct Hreq as (llm & <- & Hllm).
  change (py_take 3 (selected_interface env a ++ selected_knowledge env a))
    with (firstn 3 (selected_interface env a ++ selected_knowledge env a)) in Hllm.
  rewrite firstn_app_left in Hllm by (unfold len in Hthree; lia).
  assert (Hin : In llm (selected_interface env a)).
  { rewrite <- (firstn_skipn 3). apply in_or_app. now left. }
  unfold selected_interface in Hin. apply In_py_take in Hin.
  apply get_llms_by_type_model_type in Hin.
  rewrite (proj1 (_execute_single_llm_type _ _)). cbn. rewrite Hin. reflexivity.
Qed.

Lemma consensus_ignores_knowledge_witness :
  ParallelExecutionResult.knowledge_llm_results
    (fst (execute_parallel answering parallel_executor
            (with_counts 3 2 (with_strategy CONSENSUS (default_arguments fibonacci_prompt)))))
  = [].
Proof.
  apply consensus_ignores_knowledge; [reflexivity|]. vm_compute. discriminate.
Defined.

(** ** The prompt templates *)

Lemma append_length (s t : string) :
  String.length (s ++ t) = (String.length s + String.length t)%nat.
Proof. induction s as [|c s IH]; cbn; [reflexivity|now rewrite IH]. Qed.

Lemma append_cancel_l (p a b : string) : (p ++ a = p ++ b)%string -> a = b.
Proof.
  induction p as [|c p IH]; cbn; intros H; [exact H|].
  injection H as H. now apply IH.
Qed.

Lemma append_cancel_r (t : string) : forall a b, (a ++ t = b ++ t)%string -> a = b.
Proof.
  induction a as [|c a IH]; intros [|d b] H.
  - reflexivity.
  - exfalso. apply (f_equal String.length) in H. cbn in H.
    rewrite append_length in H. lia.
  - exfalso. apply (f_equal String.length) in H. cbn in H.
    rewrite append_length in H. lia.
  - cbn in H. injection H as -> H. now rewrite (IH b H).
Qed.

(** X18.  The prompt templates keep the user prompt recoverable: each
    template maps different user prompts to different model prompts, and no
    interface prompt is ever equal to a knowledge prompt. *)
Theorem prompt_templates_injective :
  (forall p q, _format_interface_prompt p = _format_interface_prompt q -> p = q)
  /\ (forall p q, _format_knowledge_prompt p = _format_knowledge_prompt q -> p = q)
  /\ (forall p q, _format_interface_prompt p <> _format_knowledge_prompt q).
Proof.
  split; [|split].
  - intros p q H. unfold _format_interface_prompt in H.
    repeat (apply append_cancel_l in H).
    now apply append_cancel_r in H.
  - intros p q H. unfold _format_knowledge_prompt in H.
    repeat (apply append_cancel_l in H).
    now apply append_cancel_r in H.
  - intros p q H. unfold _format_interface_prompt, _format_knowledge_prompt in H.
    cbn in H. discriminate H.
Qed.

(** ** Isolation of the members of a parallel batch *)




(** ** The speedup in binary64 *)

(** X20.  In binary64 the speedup reported by the synthesizer can exceed
    the number of results: three results that took 341.37 ms each sum to
    1024.1100000000001 ms and give the speedup 3.0000000000000004. *)
Theorem binary64_speedup_above_count :
  Binary64.py_sum (Binary64.processing_times Binary64.equal_times)
  = 1024.1100000000001%float
  /\ Binary64.synthesis_speedup Binary64.equal_times [] = 3.0000000000000004%float
  /\ (Binary64.of_int (Z.of_nat (List.length Binary64.equal_times))
      <? Binary64.synthesis_speedup Binary64.equal_times [])%float = true.
Proof. repeat split; vm_compute; reflexivity. Qed.
